(** * IAM policy wrappers of cloud-objects (aws/iam/policy.go)

    A shallow embedding of the policy helpers [createPolicy], [updatePolicy],
    [deletePolicy], [getPolicy], [getPolicyVersion] and of the methods of
    [PolicyInstance].

    - A Go pointer is an [option]: [None] is [nil].
    - A Go function either returns or panics: [outcome].
    - The IAM client ([iamiface.IAMAPI]) is an interface whose implementation
      (the real client or a mock) carries state of its own; it is a record of
      state transformers over an arbitrary state type.
    - Every SDK call made is appended to a log of [event]s, so that which
      calls are made, in which order and with which answer can be stated. *)

From Stdlib Require Import String List Bool Ascii Arith ZArith Lia.
Import ListNotations.
Open Scope string_scope.
Open Scope list_scope.

(** ** Values of the AWS SDK *)

(** [awsarn.ARN]: five string fields. *)
Record ARN : Type := mkARN {
  Partition : string;
  Service   : string;
  Region    : string;
  AccountID : string;
  Resource  : string
}.

(** [awsarn.ARN{}], the zero value. *)
Definition zero_ARN : ARN := mkARN "" "" "" "" "".

(** [func (arn ARN) String() string] of the SDK: the prefix [arn:] followed by
    the five fields separated by colons. *)
Definition ARN_String (a : ARN) : string :=
  ("arn:" ++ Partition a ++ ":" ++ Service a ++ ":" ++ Region a ++ ":"
          ++ AccountID a ++ ":" ++ Resource a)%string.

(** A Go [error] value, by its dynamic type.  [AwsError] stands for the values
    that implement [awserr.Error] (they have a [Code()]); [OtherError] for any
    other error value ([errors.New], a JSON error, ...). *)
Inductive error : Type :=
| AwsError (code message : string)
| OtherError (message : string)
| InstanceNotYetCreatedError (message : string).

(** Modelled from the spec: package [aws] of this repository
    ([NewInstanceNotYetCreatedError]) is not among the sources; the spec calls
    its result the not-yet-created error, built from a message. *)
Definition NewInstanceNotYetCreatedError (msg : string) : error :=
  InstanceNotYetCreatedError msg.

(** The type assertion [err.(awserr.Error)] followed by [.Code()]: [None] when
    the dynamic type does not implement the interface. *)
Definition awserr_Code (e : error) : option string :=
  match e with
  | AwsError code _ => Some code
  | OtherError _ => None
  | InstanceNotYetCreatedError _ => None
  end.

(** [iam.ErrCodeNoSuchEntityException]. *)
Definition ErrCodeNoSuchEntityException : string := "NoSuchEntity".

(** [awssdk.String], [awssdk.Bool]: the address of a copy. *)
Definition awssdk_String (s : string) : option string := Some s.
Definition awssdk_Bool (b : bool) : option bool := Some b.

(** [awssdk.StringValue], [awssdk.BoolValue]: the zero value for [nil]. *)
Definition awssdk_StringValue (p : option string) : string :=
  match p with Some s => s | None => "" end.
Definition awssdk_BoolValue (p : option bool) : bool :=
  match p with Some b => b | None => false end.

(** Request and response shapes of package [iam]: the fields this code sets or
    reads (the fields it leaves unset are [nil] in every request). *)
Record CreatePolicyInput : Type := mkCreatePolicyInput {
  cpi_PolicyDocument : option string;
  cpi_Description    : option string;
  cpi_PolicyName     : option string
}.

Record CreatePolicyVersionInput : Type := mkCreatePolicyVersionInput {
  cpvi_PolicyDocument : option string;
  cpvi_PolicyArn      : option string;
  cpvi_SetAsDefault   : option bool
}.

Record ListPolicyVersionsInput : Type := mkListPolicyVersionsInput {
  lpvi_PolicyArn : option string
}.

Record DeletePolicyVersionInput : Type := mkDeletePolicyVersionInput {
  dpvi_PolicyArn : option string;
  dpvi_VersionId : option string
}.

Record DeletePolicyInput : Type := mkDeletePolicyInput {
  dpi_PolicyArn : option string
}.

Record GetPolicyInput : Type := mkGetPolicyInput {
  gpi_PolicyArn : option string
}.

Record GetPolicyVersionInput : Type := mkGetPolicyVersionInput {
  gpvi_PolicyArn : option string;
  gpvi_VersionId : option string
}.

Record Policy : Type := mkPolicy {
  pol_Arn              : option string;
  pol_DefaultVersionId : option string
}.

Record PolicyVersion : Type := mkPolicyVersion {
  pv_IsDefaultVersion : option bool;
  pv_VersionId        : option string
}.

Record CreatePolicyOutput : Type := mkCreatePolicyOutput {
  cpo_Policy : option Policy
}.

Record CreatePolicyVersionOutput : Type := mkCreatePolicyVersionOutput {
  cpvo_PolicyVersion : option PolicyVersion
}.

Record ListPolicyVersionsOutput : Type := mkListPolicyVersionsOutput {
  lpvo_Versions : list (option PolicyVersion)
}.

Record DeletePolicyVersionOutput : Type := mkDeletePolicyVersionOutput { }.

Record DeletePolicyOutput : Type := mkDeletePolicyOutput { }.

Record GetPolicyOutput : Type := mkGetPolicyOutput {
  gpo_Policy : option Policy
}.

Record GetPolicyVersionOutput : Type := mkGetPolicyVersionOutput {
  gpvo_PolicyVersion : option PolicyVersion
}.

(** What an SDK method returns: a pointer to the output and an error. *)
Definition response (O : Type) : Type := (option O * option error)%type.

(** [iamiface.IAMAPI], restricted to the methods policy.go calls. *)
Record IAMAPI (St : Type) : Type := mkIAMAPI {
  CreatePolicy        : CreatePolicyInput -> St -> response CreatePolicyOutput * St;
  CreatePolicyVersion : CreatePolicyVersionInput -> St -> response CreatePolicyVersionOutput * St;
  ListPolicyVersions  : ListPolicyVersionsInput -> St -> response ListPolicyVersionsOutput * St;
  DeletePolicyVersion : DeletePolicyVersionInput -> St -> response DeletePolicyVersionOutput * St;
  DeletePolicy        : DeletePolicyInput -> St -> response DeletePolicyOutput * St;
  GetPolicy           : GetPolicyInput -> St -> response GetPolicyOutput * St;
  GetPolicyVersion    : GetPolicyVersionInput -> St -> response GetPolicyVersionOutput * St
}.

Arguments CreatePolicy {St}.
Arguments CreatePolicyVersion {St}.
Arguments ListPolicyVersions {St}.
Arguments DeletePolicyVersion {St}.
Arguments DeletePolicy {St}.
Arguments GetPolicy {St}.
Arguments GetPolicyVersion {St}.

(** ** Calls, events, outcomes *)

Inductive call : Type :=
| CallCreatePolicy (i : CreatePolicyInput)
| CallCreatePolicyVersion (i : CreatePolicyVersionInput)
| CallListPolicyVersions (i : ListPolicyVersionsInput)
| CallDeletePolicyVersion (i : DeletePolicyVersionInput)
| CallDeletePolicy (i : DeletePolicyInput)
| CallGetPolicy (i : GetPolicyInput)
| CallGetPolicyVersion (i : GetPolicyVersionInput).

(** One SDK call that was made, with the error it answered ([None]: nil). *)
Record event : Type := Ev {
  ev_call : call;
  ev_err  : option error
}.

Inductive panic_value : Type :=
| PanicString (msg : string)          (* panic("...") *)
| NilDereference                      (* field access through a nil pointer *)
| InterfaceConversion (e : error).    (* failed err.(awserr.Error) *)

Inductive outcome (A : Type) : Type :=
| Return (a : A)
| Panic (p : panic_value).

Arguments Return {A} a.
Arguments Panic {A} p.

(** ** The monad of the embedding: state, log of SDK calls, panics *)

Definition M (S A : Type) : Type := S -> outcome A * S * list event.

Definition ret {S A} (a : A) : M S A := fun s => (Return a, s, []).

Definition bind {S A B} (m : M S A) (k : A -> M S B) : M S B :=
  fun s =>
    match m s with
    | (Return a, s1, t1) =>
        match k a s1 with
        | (o, s2, t2) => (o, s2, t1 ++ t2)
        end
    | (Panic p, s1, t1) => (Panic p, s1, t1)
    end.

Definition panic {S A} (p : panic_value) : M S A := fun s => (Panic p, s, []).

(** Reading a field through a pointer. *)
Definition deref {S A} (p : option A) : M S A :=
  match p with
  | Some a => ret a
  | None => panic NilDereference
  end.

(** Calling a method of the client. *)
Definition invoke {St O} (c : call) (f : St -> response O * St) : M St (response O) :=
  fun s => match f s with (r, s1) => (Return r, s1, [Ev c (snd r)]) end.

(** Running a helper, which sees the client's state only, inside a method,
    which also sees its receiver. *)
Definition lift {P S A} (m : M S A) : M (P * S) A :=
  fun w => match m (snd w) with (o, s1, t) => (o, (fst w, s1), t) end.

Definition receiver {P S} : M (P * S) P := fun w => (Return (fst w), w, []).

Definition set_receiver {P S} (p : P) : M (P * S) unit :=
  fun w => (Return tt, (p, snd w), []).

Declare Scope go_scope.
Delimit Scope go_scope with go.
Notation "x <- c1 ;; c2" := (bind c1 (fun x => c2))
  (at level 100, c1 at next level, right associativity) : go_scope.
Notation "' pat <- c1 ;; c2" := (bind c1 (fun x => match x with pat => c2 end))
  (at level 100, pat pattern, c1 at next level, right associativity) : go_scope.
Open Scope go_scope.

(** Projections of a run. *)
Definition result_of {S A} (r : outcome A * S * list event) : outcome A := fst (fst r).
Definition state_of {S A} (r : outcome A * S * list event) : S := snd (fst r).
Definition trace_of {S A} (r : outcome A * S * list event) : list event := snd r.
Definition calls_of {S A} (r : outcome A * S * list event) : list call :=
  map ev_call (trace_of r).

(** ** policy.go *)

Section Policy.

(** [PolicyDocument] is declared in a file of the package that is not among
    the sources, and [json.Marshal] and [awsarn.Parse] belong to libraries:
    the development holds for any of them. *)
Variable PolicyDocument : Type.
Variable json_Marshal : PolicyDocument -> string + error.
Variable awsarn_Parse : string -> ARN + error.
Variable St : Type.

Definition createPolicy (svc : IAMAPI St) (polName polDesc : string) (pd : PolicyDocument)
  : M St (response CreatePolicyOutput) :=
  match json_Marshal pd with
  | inr err => ret (None, Some err)
  | inl b =>
      '(result, err) <- invoke
          (CallCreatePolicy (mkCreatePolicyInput (awssdk_String b)
                               (awssdk_String polDesc) (awssdk_String polName)))
          (CreatePolicy svc (mkCreatePolicyInput (awssdk_String b)
                               (awssdk_String polDesc) (awssdk_String polName))) ;;
      match err with
      | Some e => ret (None, Some e)
      | None => ret (result, None)
      end
  end.

Definition updatePolicy (svc : IAMAPI St) (policyArn : ARN) (pd : PolicyDocument)
  : M St (response CreatePolicyVersionOutput) :=
  match json_Marshal pd with
  | inr err => ret (None, Some err)
  | inl b =>
      '(result, err) <- invoke
          (CallCreatePolicyVersion (mkCreatePolicyVersionInput (awssdk_String b)
                               (awssdk_String (ARN_String policyArn)) (awssdk_Bool true)))
          (CreatePolicyVersion svc (mkCreatePolicyVersionInput (awssdk_String b)
                               (awssdk_String (ARN_String policyArn)) (awssdk_Bool true))) ;;
      match err with
      | Some e => ret (None, Some e)
      | None => ret (result, None)
      end
  end.

(** The [for ... range listPolicyOut.Versions] loop of [deletePolicy]; its
    value is the error of the [return nil, err] inside the loop, if taken. *)
Fixpoint deletePolicy_loop (svc : IAMAPI St) (arn : ARN)
    (versions : list (option PolicyVersion)) : M St (option error) :=
  match versions with
  | [] => ret None
  | version :: rest =>
      v <- deref version ;;
      if negb (awssdk_BoolValue (pv_IsDefaultVersion v)) then
        '(_, err) <- invoke
            (CallDeletePolicyVersion (mkDeletePolicyVersionInput
                               (awssdk_String (ARN_String arn)) (pv_VersionId v)))
            (DeletePolicyVersion svc (mkDeletePolicyVersionInput
                               (awssdk_String (ARN_String arn)) (pv_VersionId v))) ;;
        match err with
        | Some e => ret (Some e)
        | None => deletePolicy_loop svc arn rest
        end
      else deletePolicy_loop svc arn rest
  end.

Definition deletePolicy (svc : IAMAPI St) (arn : ARN) : M St (response DeletePolicyOutput) :=
  '(listPolicyOut, err) <- invoke
      (CallListPolicyVersions (mkListPolicyVersionsInput (awssdk_String (ARN_String arn))))
      (ListPolicyVersions svc (mkListPolicyVersionsInput (awssdk_String (ARN_String arn)))) ;;
  match err with
  | Some e => ret (None, Some e)
  | None =>
      out <- deref listPolicyOut ;;
      early <- deletePolicy_loop svc arn (lpvo_Versions out) ;;
      match early with
      | Some e => ret (None, Some e)
      | None =>
          '(res, err) <- invoke
              (CallDeletePolicy (mkDeletePolicyInput (awssdk_String (ARN_String arn))))
              (DeletePolicy svc (mkDeletePolicyInput (awssdk_String (ARN_String arn)))) ;;
          match err with
          | Some e =>
              match awserr_Code e with
              | None => panic (InterfaceConversion e)
              | Some code =>
                  if negb (String.eqb code ErrCodeNoSuchEntityException)
                  then ret (None, Some e)
                  else ret (res, None)
              end
          | None => ret (res, None)
          end
      end
  end.

Definition getPolicy (svc : IAMAPI St) (arn : ARN) : M St (response GetPolicyOutput) :=
  '(result, err) <- invoke
      (CallGetPolicy (mkGetPolicyInput (awssdk_String (ARN_String arn))))
      (GetPolicy svc (mkGetPolicyInput (awssdk_String (ARN_String arn)))) ;;
  match err with
  | Some e => ret (None, Some e)
  | None => ret (result, None)
  end.

Definition getPolicyVersion (svc : IAMAPI St) (po : GetPolicyOutput)
  : M St (response GetPolicyVersionOutput) :=
  pol <- deref (gpo_Policy po) ;;
  '(result, err) <- invoke
      (CallGetPolicyVersion (mkGetPolicyVersionInput (pol_Arn pol) (pol_DefaultVersionId pol)))
      (GetPolicyVersion svc (mkGetPolicyVersionInput (pol_Arn pol) (pol_DefaultVersionId pol))) ;;
  match err with
  | Some e => ret (None, Some e)
  | None => ret (result, None)
  end.

Record PolicyInstance : Type := mkPolicyInstance {
  pi_Name           : string;
  pi_Description    : string;
  pi_PolicyDocument : PolicyDocument;
  pi_arn            : ARN
}.

Definition NewPolicyInstance (name description : string) (policyDoc : PolicyDocument)
  : PolicyInstance :=
  mkPolicyInstance name description policyDoc zero_ARN.

Definition NewExistingPolicyInstance (name description : string)
    (policyDoc : PolicyDocument) (arn : ARN) : PolicyInstance :=
  mkPolicyInstance name description policyDoc arn.

(** The methods have a pointer receiver: they run on the pair of the
    receiver and the client's state. *)
Definition Method (A : Type) : Type := M (PolicyInstance * St) A.

Definition IsCreated (svc : IAMAPI St) : Method bool :=
  p <- receiver ;;
  ret (negb (String.eqb (ARN_String (pi_arn p)) (ARN_String zero_ARN))).

Definition PolicyInstance_ARN : Method ARN :=
  p <- receiver ;;
  ret (pi_arn p).

Definition Create (svc : IAMAPI St) : Method (option error) :=
  p <- receiver ;;
  '(out, err) <- lift (createPolicy svc (pi_Name p) (pi_Description p) (pi_PolicyDocument p)) ;;
  match err with
  | Some e => ret (Some e)
  | None =>
      o <- deref out ;;
      pol <- deref (cpo_Policy o) ;;
      match awsarn_Parse (awssdk_StringValue (pol_Arn pol)) with
      | inr e => ret (Some e)
      | inl newarn =>
          _ <- set_receiver (mkPolicyInstance (pi_Name p) (pi_Description p)
                               (pi_PolicyDocument p) newarn) ;;
          ret None
      end
  end.

Definition Read (svc : IAMAPI St) : Method (option error) :=
  panic (PanicString "Implement me").

Definition not_yet_created (p : PolicyInstance) : string :=
  ("Policy '" ++ pi_Name p ++ "' not yet created")%string.

Definition Update (svc : IAMAPI St) : Method (option error) :=
  created <- IsCreated svc ;;
  p <- receiver ;;
  if negb created then
    ret (Some (NewInstanceNotYetCreatedError (not_yet_created p)))
  else
    '(_, err) <- lift (updatePolicy svc (pi_arn p) (pi_PolicyDocument p)) ;;
    match err with
    | Some e => ret (Some e)
    | None => ret None
    end.

Definition Delete (svc : IAMAPI St) : Method (option error) :=
  created <- IsCreated svc ;;
  p <- receiver ;;
  if negb created then
    ret (Some (NewInstanceNotYetCreatedError (not_yet_created p)))
  else
    '(_, err) <- lift (deletePolicy svc (pi_arn p)) ;;
    match err with
    | Some e => ret (Some e)
    | None => ret None
    end.

End Policy.

Arguments createPolicy {PolicyDocument} json_Marshal {St} svc polName polDesc pd.
Arguments updatePolicy {PolicyDocument} json_Marshal {St} svc policyArn pd.
Arguments deletePolicy_loop {St} svc arn versions.
Arguments deletePolicy {St} svc arn.
Arguments getPolicy {St} svc arn.
Arguments getPolicyVersion {St} svc po.
Arguments mkPolicyInstance {PolicyDocument}.
Arguments pi_Name {PolicyDocument}.
Arguments pi_Description {PolicyDocument}.
Arguments pi_PolicyDocument {PolicyDocument}.
Arguments pi_arn {PolicyDocument}.
Arguments NewPolicyInstance {PolicyDocument}.
Arguments NewExistingPolicyInstance {PolicyDocument}.
Arguments not_yet_created {PolicyDocument}.
Arguments IsCreated {PolicyDocument St} svc.
Arguments PolicyInstance_ARN {PolicyDocument St}.
Arguments Create {PolicyDocument} json_Marshal awsarn_Parse {St} svc.
Arguments Read {PolicyDocument St} svc.
Arguments Update {PolicyDocument} json_Marshal {St} svc.
Arguments Delete {PolicyDocument St} svc.

(** ** Vocabulary of the statements *)

(** The versions a listing holds (its non-nil entries). *)
Definition listed (versions : list (option PolicyVersion)) : list PolicyVersion :=
  flat_map (fun v => match v with Some pv => [pv] | None => [] end) versions.

(** A version whose [IsDefaultVersion] flag reads false. *)
Definition non_default (pv : PolicyVersion) : bool :=
  negb (awssdk_BoolValue (pv_IsDefaultVersion pv)).

Definition delete_version_call (arn : ARN) (pv : PolicyVersion) : call :=
  CallDeletePolicyVersion
    (mkDeletePolicyVersionInput (Some (ARN_String arn)) (pv_VersionId pv)).

Definition list_versions_call (arn : ARN) : call :=
  CallListPolicyVersions (mkListPolicyVersionsInput (Some (ARN_String arn))).

Definition delete_policy_call (arn : ARN) : call :=
  CallDeletePolicy (mkDeletePolicyInput (Some (ARN_String arn))).

(** The calls of a complete deletion, in order: the listing, one
    [DeletePolicyVersion] per listed non-default version, [DeletePolicy]. *)
Definition version_calls (arn : ARN) (versions : list (option PolicyVersion)) : list call :=
  map (delete_version_call arn) (filter non_default (listed versions)).

Definition complete_delete_calls (arn : ARN) (versions : list (option PolicyVersion))
  : list call :=
  list_versions_call arn :: version_calls arn versions ++ [delete_policy_call arn].

(** The call answered a nil error. *)
Definition succeeded (ev : event) : bool :=
  match ev_err ev with None => true | Some _ => false end.

(** No call of the log answered an error. *)
Definition all_succeeded (t : list event) : Prop :=
  forallb succeeded t = true.



(** What a run of the loop of [deletePolicy] over [versions] looks like. *)
Definition loop_post {St : Type} (arn : ARN) (versions : list (option PolicyVersion))
    (r : outcome (option error) * St * list event) : Prop :=
  (exists rest, version_calls arn versions = calls_of r ++ rest) /\
  match result_of r with
  | Return None =>
      calls_of r = version_calls arn versions /\ all_succeeded (trace_of r)
  | Return (Some e) =>
      exists t0 pv,
        trace_of r = t0 ++ [Ev (delete_version_call arn pv) (Some e)] /\ all_succeeded t0
  | Panic p => p = NilDereference /\ all_succeeded (trace_of r)
  end.

(** The versions the listing of [deletePolicy] answers in state [s]. *)
Definition versions_listed {St : Type} (svc : IAMAPI St) (arn : ARN) (s : St)
  : list (option PolicyVersion) :=
  match fst (fst (ListPolicyVersions svc
                    (mkListPolicyVersionsInput (Some (ARN_String arn))) s)) with
  | Some out => lpvo_Versions out
  | None => []
  end.

(** A method that runs a helper and keeps its error only. *)
Definition returning_error {P St O : Type} (m : M St (response O)) : M (P * St) (option error) :=
  fun w =>
    match m (snd w) with
    | (Return (_, err), s1, t) => (Return err, (fst w, s1), t)
    | (Panic q, s1, t) => (Panic q, (fst w, s1), t)
    end.

(** What a helper answers from the response of its one SDK call. *)
Definition passed_on {O : Type} (r : response O) : response O :=
  match snd r with
  | Some e => (None, Some e)
  | None => (fst r, None)
  end.

(** ** Sample documents, ARNs and clients *)

(** A document type that marshals to its own text, and one that never
    marshals. *)
Definition text_Marshal (pd : string) : string + error := inl pd.

Definition failing_Marshal (pd : string) : string + error :=
  inr (OtherError "json: unsupported type").

Definition readers_arn : ARN := mkARN "aws" "iam" "" "123456789012" "policy/readers".

(** A parser that knows one ARN. *)
Definition readers_Parse (text : string) : ARN + error :=
  if String.eqb text (ARN_String readers_arn) then inl readers_arn
  else inr (OtherError "arn: invalid prefix").

Definition v1 : PolicyVersion := mkPolicyVersion (Some true) (Some "v1").
Definition v2 : PolicyVersion := mkPolicyVersion (Some false) (Some "v2").
Definition v3 : PolicyVersion := mkPolicyVersion (Some false) (Some "v3").
Definition v4 : PolicyVersion := mkPolicyVersion None (Some "v4").

(** A listing of a default version, two versions flagged as not the default,
    and one whose flag is absent. *)
Definition four_versions : response ListPolicyVersionsOutput :=
  (Some (mkListPolicyVersionsOutput [Some v1; Some v2; Some v3; Some v4]), None).

(** A client that counts the calls it served, and answers [CreatePolicy] with
    the ARN of [readers_arn], [ListPolicyVersions] with [listing], and the
    three deleting or versioning calls with the given errors. *)
Definition mock (listing : response ListPolicyVersionsOutput)
    (version_err delete_err : option error) : IAMAPI nat :=
  {| CreatePolicy := fun _ n =>
       ((Some (mkCreatePolicyOutput
                 (Some (mkPolicy (Some (ARN_String readers_arn)) (Some "v1")))), None), S n);
     CreatePolicyVersion := fun _ n =>
       ((Some (mkCreatePolicyVersionOutput (Some v2)), version_err), S n);
     ListPolicyVersions := fun _ n => (listing, S n);
     DeletePolicyVersion := fun _ n =>
       ((Some mkDeletePolicyVersionOutput, version_err), S n);
     DeletePolicy := fun _ n => ((Some mkDeletePolicyOutput, delete_err), S n);
     GetPolicy := fun _ n =>
       ((Some (mkGetPolicyOutput
                 (Some (mkPolicy (Some (ARN_String readers_arn)) (Some "v1")))), None), S n);
     GetPolicyVersion := fun _ n =>
       ((Some (mkGetPolicyVersionOutput (Some v1)), None), S n) |}.

Definition no_such_entity : error :=
  AwsError "NoSuchEntity" "Policy readers was not found.".

Definition delete_conflict : error :=
  AwsError "DeleteConflict" "Cannot delete a policy attached to entities.".

Definition connection_reset : error := OtherError "read: connection reset by peer".

(** Every call succeeds. *)
Definition healthy : IAMAPI nat := mock four_versions None None.


(** The policy does not exist: the listing already says so. *)
Definition policy_gone : IAMAPI nat :=
  mock (None, Some no_such_entity) (Some no_such_entity) (Some no_such_entity).

(** The policy disappears between the deletion of its versions and its own. *)
Definition gone_at_delete : IAMAPI nat := mock four_versions None (Some no_such_entity).

(** The policy is still attached. *)
Definition still_attached : IAMAPI nat := mock four_versions None (Some delete_conflict).

(** [DeletePolicy] answers an error that is no [awserr.Error]. *)
Definition broken_transport : IAMAPI nat := mock four_versions None (Some connection_reset).

Definition readers_new : PolicyInstance string :=
  NewPolicyInstance "readers" "read access" "{}".

Definition readers_existing : PolicyInstance string :=
  NewExistingPolicyInstance "readers" "read access" "{}" readers_arn.

(** ** Further vocabulary and sample clients *)

(** The [PolicyArn] a request carries. *)
Definition call_PolicyArn (c : call) : option string :=
  match c with
  | CallCreatePolicy _ => None
  | CallCreatePolicyVersion i => cpvi_PolicyArn i
  | CallListPolicyVersions i => lpvi_PolicyArn i
  | CallDeletePolicyVersion i => dpvi_PolicyArn i
  | CallDeletePolicy i => dpi_PolicyArn i
  | CallGetPolicy i => gpi_PolicyArn i
  | CallGetPolicyVersion i => gpvi_PolicyArn i
  end.

(** A listing with a nil entry between two versions. *)
Definition torn_listing : response ListPolicyVersionsOutput :=
  (Some (mkListPolicyVersionsOutput [Some v2; None; Some v3]), None).

Definition torn : IAMAPI nat := mock torn_listing None None.

(** [CreatePolicy] answers neither an output nor an error. *)
Definition silent_create : IAMAPI nat :=
  {| CreatePolicy := fun _ n => ((None, None), S n);
     CreatePolicyVersion := CreatePolicyVersion healthy;
     ListPolicyVersions := ListPolicyVersions healthy;
     DeletePolicyVersion := DeletePolicyVersion healthy;
     DeletePolicy := DeletePolicy healthy;
     GetPolicy := GetPolicy healthy;
     GetPolicyVersion := GetPolicyVersion healthy |}.

(** ** role.go

    The role helpers and [RoleInstance] call five more methods of the IAM
    client and can panic in one more way (an index out of range), so they
    get calls, events, outcomes and a monad of their own, built like those of
    policy.go above. *)

Module Roles.

(** [iam.Role], [int64] being a [Z] (the code only passes it on). *)
Record Role : Type := mkRole {
  role_Arn                : option string;
  role_Description        : option string;
  role_MaxSessionDuration : option Z;
  role_RoleName           : option string
}.

Record CreateRoleInput : Type := mkCreateRoleInput {
  cri_AssumeRolePolicyDocument : option string;
  cri_Description              : option string;
  cri_MaxSessionDuration       : option Z;
  cri_RoleName                 : option string
}.

Record UpdateRoleInput : Type := mkUpdateRoleInput {
  uri_RoleName    : option string;
  uri_Description : option string
}.

Record UpdateAssumeRolePolicyInput : Type := mkUpdateAssumeRolePolicyInput {
  uarpi_RoleName       : option string;
  uarpi_PolicyDocument : option string
}.

Record DeleteRoleInput : Type := mkDeleteRoleInput {
  dri_RoleName : option string
}.

Record GetRoleInput : Type := mkGetRoleInput {
  gri_RoleName : option string
}.

Record CreateRoleOutput : Type := mkCreateRoleOutput {
  cro_Role : option Role
}.

Record UpdateRoleOutput : Type := mkUpdateRoleOutput { }.

Record UpdateAssumeRolePolicyOutput : Type := mkUpdateAssumeRolePolicyOutput { }.

Record DeleteRoleOutput : Type := mkDeleteRoleOutput { }.

Record GetRoleOutput : Type := mkGetRoleOutput {
  gro_Role : option Role
}.

(** [iamiface.IAMAPI], restricted to the methods role.go calls. *)
Record IAMAPI (St : Type) : Type := mkIAMAPI {
  CreateRole : CreateRoleInput -> St -> response CreateRoleOutput * St;
  UpdateRole : UpdateRoleInput -> St -> response UpdateRoleOutput * St;
  UpdateAssumeRolePolicy :
    UpdateAssumeRolePolicyInput -> St -> response UpdateAssumeRolePolicyOutput * St;
  DeleteRole : DeleteRoleInput -> St -> response DeleteRoleOutput * St;
  GetRole    : GetRoleInput -> St -> response GetRoleOutput * St
}.

Arguments CreateRole {St}.
Arguments UpdateRole {St}.
Arguments UpdateAssumeRolePolicy {St}.
Arguments DeleteRole {St}.
Arguments GetRole {St}.

Inductive call : Type :=
| CallCreateRole (i : CreateRoleInput)
| CallUpdateRole (i : UpdateRoleInput)
| CallUpdateAssumeRolePolicy (i : UpdateAssumeRolePolicyInput)
| CallDeleteRole (i : DeleteRoleInput)
| CallGetRole (i : GetRoleInput).

Record event : Type := Ev {
  ev_call : call;
  ev_err  : option error
}.

Inductive panic_value : Type :=
| NilDereference                      (* field access or [*p] through a nil pointer *)
| IndexOutOfRange                     (* [arns[0]] on an empty slice *)
| InterfaceConversion (e : error).    (* failed err.(awserr.Error) *)

Inductive outcome (A : Type) : Type :=
| Return (a : A)
| Panic (p : panic_value).

Arguments Return {A} a.
Arguments Panic {A} p.

Definition M (S A : Type) : Type := S -> outcome A * S * list event.

Definition ret {S A} (a : A) : M S A := fun s => (Return a, s, []).

Definition bind {S A B} (m : M S A) (k : A -> M S B) : M S B :=
  fun s =>
    match m s with
    | (Return a, s1, t1) =>
        match k a s1 with
        | (o, s2, t2) => (o, s2, t1 ++ t2)
        end
    | (Panic p, s1, t1) => (Panic p, s1, t1)
    end.

Definition panic {S A} (p : panic_value) : M S A := fun s => (Panic p, s, []).

Definition deref {S A} (p : option A) : M S A :=
  match p with
  | Some a => ret a
  | None => panic NilDereference
  end.

(** [l[0]]. *)
Definition index0 {S A} (l : list A) : M S A :=
  match l with
  | a :: _ => ret a
  | [] => panic IndexOutOfRange
  end.

Definition invoke {St O} (c : call) (f : St -> response O * St) : M St (response O) :=
  fun s => match f s with (r, s1) => (Return r, s1, [Ev c (snd r)]) end.

Definition lift {P S A} (m : M S A) : M (P * S) A :=
  fun w => match m (snd w) with (o, s1, t) => (o, (fst w, s1), t) end.

Definition receiver {P S} : M (P * S) P := fun w => (Return (fst w), w, []).

(** An assignment to a field of the receiver. *)
Definition assign {P S} (f : P -> P) : M (P * S) unit :=
  fun w => (Return tt, (f (fst w), snd w), []).

Declare Scope role_scope.
Delimit Scope role_scope with role.
Notation "x <- c1 ;; c2" := (bind c1 (fun x => c2))
  (at level 100, c1 at next level, right associativity) : role_scope.
Notation "' pat <- c1 ;; c2" := (bind c1 (fun x => match x with pat => c2 end))
  (at level 100, pat pattern, c1 at next level, right associativity) : role_scope.
Local Open Scope role_scope.

Definition result_of {S A} (r : outcome A * S * list event) : outcome A := fst (fst r).
Definition state_of {S A} (r : outcome A * S * list event) : S := snd (fst r).
Definition trace_of {S A} (r : outcome A * S * list event) : list event := snd r.
Definition calls_of {S A} (r : outcome A * S * list event) : list call :=
  map ev_call (trace_of r).

Section RoleCode.

(** [PolicyDocument], [FriendlyNamefromARN] (package iam) and [aws.ARNify]
    are declared in files of the repository that are not among the sources,
    and [json.Marshal] and [awsarn.Parse] belong to libraries: the
    development holds for any of them.  [ARNify] answers a slice and an
    error. *)
Variable PolicyDocument : Type.
Variable json_Marshal : PolicyDocument -> string + error.
Variable awsarn_Parse : string -> ARN + error.
Variable FriendlyNamefromARN : ARN -> string.
Variable ARNify : string -> list ARN * option error.
Variable St : Type.

Definition createRole (svc : IAMAPI St) (rn roleDesc : string) (sessionDuration : Z)
    (pd : PolicyDocument) : M St (response CreateRoleOutput) :=
  match json_Marshal pd with
  | inr err => ret (None, Some err)
  | inl b =>
      '(result, err) <- invoke
          (CallCreateRole (mkCreateRoleInput (awssdk_String b) (awssdk_String roleDesc)
                             (Some sessionDuration) (awssdk_String rn)))
          (CreateRole svc (mkCreateRoleInput (awssdk_String b) (awssdk_String roleDesc)
                             (Some sessionDuration) (awssdk_String rn))) ;;
      match err with
      | Some e => ret (None, Some e)
      | None => ret (result, None)
      end
  end.

Definition updateRole (svc : IAMAPI St) (roleArn : ARN) (roleDesc : string)
    (pd : PolicyDocument) : M St (response UpdateRoleOutput) :=
  '(result, err) <- invoke
      (CallUpdateRole (mkUpdateRoleInput (awssdk_String (FriendlyNamefromARN roleArn))
                         (awssdk_String roleDesc)))
      (UpdateRole svc (mkUpdateRoleInput (awssdk_String (FriendlyNamefromARN roleArn))
                         (awssdk_String roleDesc))) ;;
  match err with
  | Some e => ret (None, Some e)
  | None =>
      match json_Marshal pd with
      | inr e => ret (None, Some e)
      | inl b =>
          '(_, err) <- invoke
              (CallUpdateAssumeRolePolicy
                 (mkUpdateAssumeRolePolicyInput
                    (awssdk_String (FriendlyNamefromARN roleArn)) (awssdk_String b)))
              (UpdateAssumeRolePolicy svc
                 (mkUpdateAssumeRolePolicyInput
                    (awssdk_String (FriendlyNamefromARN roleArn)) (awssdk_String b))) ;;
          match err with
          | Some e => ret (None, Some e)
          | None => ret (result, None)
          end
      end
  end.

Definition deleteRole (svc : IAMAPI St) (roleArn : ARN) : M St (response DeleteRoleOutput) :=
  '(res, err) <- invoke
      (CallDeleteRole (mkDeleteRoleInput (awssdk_String (FriendlyNamefromARN roleArn))))
      (DeleteRole svc (mkDeleteRoleInput (awssdk_String (FriendlyNamefromARN roleArn)))) ;;
  match err with
  | Some e =>
      match awserr_Code e with
      | None => panic (InterfaceConversion e)
      | Some code =>
          if negb (String.eqb code ErrCodeNoSuchEntityException)
          then ret (None, Some e)
          else ret (res, None)
      end
  | None => ret (res, None)
  end.

Definition getRole (svc : IAMAPI St) (roleArn : ARN) : M St (response GetRoleOutput) :=
  '(result, err) <- invoke
      (CallGetRole (mkGetRoleInput (awssdk_String (FriendlyNamefromARN roleArn))))
      (GetRole svc (mkGetRoleInput (awssdk_String (FriendlyNamefromARN roleArn)))) ;;
  match err with
  | Some e => ret (None, Some e)
  | None => ret (result, None)
  end.

Definition getRoleByName (roleName : string) (svc : IAMAPI St) : M St (response GetRoleOutput) :=
  '(result, err) <- invoke
      (CallGetRole (mkGetRoleInput (awssdk_String roleName)))
      (GetRole svc (mkGetRoleInput (awssdk_String roleName))) ;;
  match err with
  | Some e => ret (None, Some e)
  | None => ret (result, None)
  end.

Record RoleInstance : Type := mkRoleInstance {
  ri_Name               : string;
  ri_Description        : string;
  ri_PolicyDocument     : PolicyDocument;
  ri_MaxSessionDuration : Z;
  ri_arn                : ARN
}.

Definition NewRoleInstance (name description : string) (sessionDuration : Z)
    (poldoc : PolicyDocument) : RoleInstance :=
  mkRoleInstance name description poldoc sessionDuration zero_ARN.

Definition NewExistingRoleInstance (name description : string) (sessionDuration : Z)
    (poldoc : PolicyDocument) (arn : ARN) : RoleInstance :=
  mkRoleInstance name description poldoc sessionDuration arn.

(** The assignments [r.arn = ...], [r.Description = ...],
    [r.MaxSessionDuration = ...] and [r.Name = ...]. *)
Definition set_arn (a : ARN) (r : RoleInstance) : RoleInstance :=
  mkRoleInstance (ri_Name r) (ri_Description r) (ri_PolicyDocument r)
    (ri_MaxSessionDuration r) a.

Definition set_Description (d : string) (r : RoleInstance) : RoleInstance :=
  mkRoleInstance (ri_Name r) d (ri_PolicyDocument r) (ri_MaxSessionDuration r) (ri_arn r).

Definition set_MaxSessionDuration (m : Z) (r : RoleInstance) : RoleInstance :=
  mkRoleInstance (ri_Name r) (ri_Description r) (ri_PolicyDocument r) m (ri_arn r).

Definition set_Name (n : string) (r : RoleInstance) : RoleInstance :=
  mkRoleInstance n (ri_Description r) (ri_PolicyDocument r) (ri_MaxSessionDuration r) (ri_arn r).

Definition Method (A : Type) : Type := M (RoleInstance * St) A.

Definition IsCreated (svc : IAMAPI St) : Method bool :=
  r <- receiver ;;
  ret (negb (String.eqb (ARN_String (ri_arn r)) (ARN_String zero_ARN))).

Definition RoleInstance_ARN : Method ARN :=
  r <- receiver ;;
  ret (ri_arn r).

Definition Create (svc : IAMAPI St) : Method (option error) :=
  r <- receiver ;;
  '(out, err) <- lift (createRole svc (ri_Name r) (ri_Description r)
                         (ri_MaxSessionDuration r) (ri_PolicyDocument r)) ;;
  match err with
  | Some e => ret (Some e)
  | None =>
      o <- deref out ;;
      role <- deref (cro_Role o) ;;
      match awsarn_Parse (awssdk_StringValue (role_Arn role)) with
      | inr e => ret (Some e)
      | inl newarn =>
          _ <- assign (set_arn newarn) ;;
          ret None
      end
  end.

Definition Read (svc : IAMAPI St) : Method (option error) :=
  r <- receiver ;;
  '(roleout, err) <- lift (getRoleByName (ri_Name r) svc) ;;
  match err with
  | Some e => ret (Some e)
  | None =>
      out <- deref roleout ;;
      role <- deref (gro_Role out) ;;
      match ARNify (awssdk_StringValue (role_Arn role)) with
      | (_, Some e) => ret (Some e)
      | (arns, None) =>
          a <- index0 arns ;;
          _ <- assign (set_arn a) ;;
          d <- deref (role_Description role) ;;
          _ <- assign (set_Description d) ;;
          m <- deref (role_MaxSessionDuration role) ;;
          _ <- assign (set_MaxSessionDuration m) ;;
          n <- deref (role_RoleName role) ;;
          _ <- assign (set_Name n) ;;
          ret None
      end
  end.

Definition not_yet_created (r : RoleInstance) : string :=
  ("Role '" ++ ri_Name r ++ "' not yet created")%string.

Definition Update (svc : IAMAPI St) : Method (option error) :=
  created <- IsCreated svc ;;
  r <- receiver ;;
  if negb created then
    ret (Some (NewInstanceNotYetCreatedError (not_yet_created r)))
  else
    '(_, err) <- lift (updateRole svc (ri_arn r) (ri_Description r) (ri_PolicyDocument r)) ;;
    match err with
    | Some e => ret (Some e)
    | None => ret None
    end.

Definition Delete (svc : IAMAPI St) : Method (option error) :=
  created <- IsCreated svc ;;
  r <- receiver ;;
  if negb created then
    ret (Some (NewInstanceNotYetCreatedError (not_yet_created r)))
  else
    '(_, err) <- lift (deleteRole svc (ri_arn r)) ;;
    match err with
    | Some e => ret (Some e)
    | None => ret None
    end.

End RoleCode.

Arguments createRole {PolicyDocument} json_Marshal {St} svc rn roleDesc sessionDuration pd.
Arguments updateRole {PolicyDocument} json_Marshal FriendlyNamefromARN {St} svc roleArn roleDesc pd.
Arguments deleteRole FriendlyNamefromARN {St} svc roleArn.
Arguments getRole FriendlyNamefromARN {St} svc roleArn.
Arguments getRoleByName {St} roleName svc.
Arguments mkRoleInstance {PolicyDocument}.
Arguments ri_Name {PolicyDocument}.
Arguments ri_Description {PolicyDocument}.
Arguments ri_PolicyDocument {PolicyDocument}.
Arguments ri_MaxSessionDuration {PolicyDocument}.
Arguments ri_arn {PolicyDocument}.
Arguments NewRoleInstance {PolicyDocument}.
Arguments NewExistingRoleInstance {PolicyDocument}.
Arguments set_arn {PolicyDocument}.
Arguments set_Description {PolicyDocument}.
Arguments set_MaxSessionDuration {PolicyDocument}.
Arguments set_Name {PolicyDocument}.
Arguments not_yet_created {PolicyDocument}.
Arguments IsCreated {PolicyDocument St} svc.
Arguments RoleInstance_ARN {PolicyDocument St}.
Arguments Create {PolicyDocument} json_Marshal awsarn_Parse {St} svc.
Arguments Read {PolicyDocument} ARNify {St} svc.
Arguments Update {PolicyDocument} json_Marshal FriendlyNamefromARN {St} svc.
Arguments Delete {PolicyDocument} FriendlyNamefromARN {St} svc.

(** No call of the log answered an error. *)
Definition all_succeeded (t : list event) : Prop :=
  forallb (fun ev => match ev_err ev with None => true | Some _ => false end) t = true.

(** What a helper answers from the response of its one SDK call. *)
Definition passed_on {O : Type} (r : response O) : response O :=
  match snd r with
  | Some e => (None, Some e)
  | None => (fst r, None)
  end.

(** A method that runs a helper and keeps its error only. *)
Definition returning_error {P St O : Type} (m : M St (response O)) : M (P * St) (option error) :=
  fun w =>
    match m (snd w) with
    | (Return (_, err), s1, t) => (Return err, (fst w, s1), t)
    | (Panic q, s1, t) => (Panic q, (fst w, s1), t)
    end.

(** *** Sample roles and clients *)

Definition ops_arn : ARN := mkARN "aws" "iam" "" "123456789012" "role/ops".

(** Stand-ins for the helpers that are not among the sources: the name is the
    resource without its [role/] prefix, and one ARN is recognised. *)
Definition resource_name (a : ARN) : string :=
  match Resource a with
  | String "r" (String "o" (String "l" (String "e" (String "/" n)))) => n
  | other => other
  end.

Definition ops_ARNify (text : string) : list ARN * option error :=
  if String.eqb text (ARN_String ops_arn) then ([ops_arn], None)
  else ([], Some (OtherError "not an ARN")).

(** A parser that knows one ARN. *)
Definition ops_Parse (text : string) : ARN + error :=
  if String.eqb text (ARN_String ops_arn) then inl ops_arn
  else inr (OtherError "arn: invalid prefix").

Definition ops_role : Role :=
  mkRole (Some (ARN_String ops_arn)) (Some "operators") (Some 3600%Z) (Some "ops").

(** The same role as the service answers it when it has no description. *)
Definition ops_role_undescribed : Role :=
  mkRole (Some (ARN_String ops_arn)) None (Some 3600%Z) (Some "ops").

(** A client that counts the calls it served. *)
Definition mock (got : response GetRoleOutput)
    (update_err assume_err delete_err : option error) : IAMAPI nat :=
  {| CreateRole := fun _ n => ((Some (mkCreateRoleOutput (Some ops_role)), None), S n);
     UpdateRole := fun _ n => ((Some mkUpdateRoleOutput, update_err), S n);
     UpdateAssumeRolePolicy := fun _ n =>
       ((Some mkUpdateAssumeRolePolicyOutput, assume_err), S n);
     DeleteRole := fun _ n => ((Some mkDeleteRoleOutput, delete_err), S n);
     GetRole := fun _ n => (got, S n) |}.

Definition healthy : IAMAPI nat :=
  mock (Some (mkGetRoleOutput (Some ops_role)), None) None None None.

Definition undescribed : IAMAPI nat :=
  mock (Some (mkGetRoleOutput (Some ops_role_undescribed)), None) None None None.

Definition role_gone : IAMAPI nat :=
  mock (None, Some no_such_entity) (Some no_such_entity) (Some no_such_entity)
       (Some no_such_entity).

Definition trust_rejected : IAMAPI nat :=
  mock (Some (mkGetRoleOutput (Some ops_role)), None) None
       (Some (AwsError "MalformedPolicyDocument" "Invalid principal in policy.")) None.

Definition ops_new : RoleInstance string := NewRoleInstance "ops" "operators" 3600%Z "{}".

Definition ops_existing : RoleInstance string :=
  NewExistingRoleInstance "ops" "operators" 3600%Z "{}" ops_arn.

Definition ops_stale : RoleInstance string :=
  NewRoleInstance "ops" "old description" 900%Z "{}".

End Roles.

(** ** ARNs *)

Lemma length_append (s1 s2 : string) :
  String.length (s1 ++ s2)%string = String.length s1 + String.length s2.
Proof.
  induction s1 as [|c s1 IH]; simpl; [reflexivity | now rewrite IH].
Qed.

Lemma length_zero_empty (s : string) : String.length s = 0 -> s = EmptyString.
Proof. destruct s; simpl; [reflexivity | discriminate]. Qed.

(** Only the zero value prints as the zero value does. *)
Lemma ARN_String_zero (a : ARN) : ARN_String a = ARN_String zero_ARN <-> a = zero_ARN.
Proof.
  split; [| intros ->; reflexivity].
  intros H. apply (f_equal String.length) in H.
  destruct a as [p sv r acc res]. unfold ARN_String in H. cbn [Partition Service Region AccountID Resource zero_ARN] in H.
  repeat rewrite length_append in H. cbn [String.length] in H.
  assert (Hp : String.length p = 0) by lia.
  assert (Hs : String.length sv = 0) by lia.
  assert (Hr : String.length r = 0) by lia.
  assert (Ha : String.length acc = 0) by lia.
  assert (He : String.length res = 0) by lia.
  apply length_zero_empty in Hp, Hs, Hr, Ha, He. subst. reflexivity.
Qed.

Lemma ARN_String_eqb_zero (a : ARN) :
  String.eqb (ARN_String a) (ARN_String zero_ARN) = true <-> a = zero_ARN.
Proof. rewrite String.eqb_eq. apply ARN_String_zero. Qed.

Lemma ARN_String_eqb_nonzero (a : ARN) :
  a <> zero_ARN -> String.eqb (ARN_String a) (ARN_String zero_ARN) = false.
Proof.
  intros H. destruct (String.eqb _ _) eqn:E; [| reflexivity].
  apply ARN_String_eqb_zero in E. contradiction.
Qed.

(** ** IsCreated and ARN *)

Section Observers.

Context {PolicyDocument St : Type}.
Implicit Types (p : PolicyInstance PolicyDocument) (s : St) (svc : IAMAPI St).

Lemma IsCreated_run svc p s :
  IsCreated svc (p, s) =
    (Return (negb (String.eqb (ARN_String (pi_arn p)) (ARN_String zero_ARN))), (p, s), []).
Proof. reflexivity. Qed.

Lemma IsCreated_zero svc p s :
  pi_arn p = zero_ARN -> IsCreated svc (p, s) = (Return false, (p, s), []).
Proof. intros H. rewrite IsCreated_run, H. reflexivity. Qed.

Lemma IsCreated_nonzero svc p s :
  pi_arn p <> zero_ARN -> IsCreated svc (p, s) = (Return true, (p, s), []).
Proof.
  intros H. rewrite IsCreated_run, (ARN_String_eqb_nonzero _ H). reflexivity.
Qed.

(** C5: [IsCreated] answers true exactly when the stored ARN is not the zero
    value, and false exactly when it is; nothing but the stored ARN enters
    the decision. *)
Theorem IsCreated_iff_arn_not_zero svc p s :
  (result_of (IsCreated svc (p, s)) = Return true <-> pi_arn p <> zero_ARN) /\
  (result_of (IsCreated svc (p, s)) = Return false <-> pi_arn p = zero_ARN).
Proof.
  rewrite IsCreated_run. unfold result_of. cbn [fst].
  destruct (String.eqb _ _) eqn:E; cbn [negb].
  - apply ARN_String_eqb_zero in E. split; split; intros H;
      try discriminate; try contradiction; try assumption; reflexivity.
  - assert (pi_arn p <> zero_ARN) as N.
    { intros H. apply ARN_String_eqb_zero in H. congruence. }
    split; split; intros H; try discriminate; try contradiction;
      try assumption; reflexivity.
Qed.

End Observers.

(** C10: the answer of [IsCreated] is the same whatever client it is given
    (two clients, even of different implementations, in any of their states);
    the call makes no SDK call and changes neither the receiver nor the
    client; [ARN] returns the stored [arn], likewise without any effect. *)
Theorem IsCreated_independent_of_service
    (PolicyDocument St1 St2 : Type) (svc1 : IAMAPI St1) (svc2 : IAMAPI St2)
    (p : PolicyInstance PolicyDocument) (s1 : St1) (s2 : St2) :
  result_of (IsCreated svc1 (p, s1)) = result_of (IsCreated svc2 (p, s2)) /\
  trace_of (IsCreated svc1 (p, s1)) = [] /\
  state_of (IsCreated svc1 (p, s1)) = (p, s1) /\
  PolicyInstance_ARN (p, s1) = (Return (pi_arn p), (p, s1), []).
Proof. repeat split. Qed.

(** ** deletePolicy *)

Section DeleteFacts.

Context {St : Type}.
Variable svc : IAMAPI St.
Variable arn : ARN.

Lemma version_calls_cons_nil (rest : list (option PolicyVersion)) :
  version_calls arn (None :: rest) = version_calls arn rest.
Proof. reflexivity. Qed.

Lemma version_calls_cons_some (pv : PolicyVersion) (rest : list (option PolicyVersion)) :
  version_calls arn (Some pv :: rest) =
    if non_default pv then delete_version_call arn pv :: version_calls arn rest
    else version_calls arn rest.
Proof.
  unfold version_calls. cbn [listed flat_map app filter].
  destruct (non_default pv); reflexivity.
Qed.

(** One iteration of the loop on a non-nil entry. *)
Lemma deletePolicy_loop_some (pv : PolicyVersion) (rest : list (option PolicyVersion)) (s : St) :
  deletePolicy_loop svc arn (Some pv :: rest) s =
    if non_default pv then
      match DeletePolicyVersion svc
              (mkDeletePolicyVersionInput (Some (ARN_String arn)) (pv_VersionId pv)) s with
      | ((_, Some e), s1) =>
          (Return (Some e), s1, [Ev (delete_version_call arn pv) (Some e)])
      | ((_, None), s1) =>
          match deletePolicy_loop svc arn rest s1 with
          | (o, s2, t) => (o, s2, Ev (delete_version_call arn pv) None :: t)
          end
      end
    else deletePolicy_loop svc arn rest s.
Proof.
  cbn [deletePolicy_loop deref]. unfold bind at 1. cbn [ret].
  unfold non_default, awssdk_String.
  destruct (negb _).
  - unfold bind, invoke, delete_version_call.
    destruct (DeletePolicyVersion svc _ s) as [[o [e|]] s1]; cbn.
    + reflexivity.
    + destruct (deletePolicy_loop svc arn rest s1) as [[o' s2] t]. reflexivity.
  - destruct (deletePolicy_loop svc arn rest s) as [[o' s2] t]. reflexivity.
Qed.

Lemma deletePolicy_loop_post (versions : list (option PolicyVersion)) :
  forall s : St, loop_post arn versions (deletePolicy_loop svc arn versions s).
Proof.
  unfold loop_post.
  induction versions as [|[pv|] rest IH]; intros s.
  - split; [exists []; reflexivity | split; reflexivity].
  - rewrite deletePolicy_loop_some, version_calls_cons_some.
    destruct (non_default pv); [| apply IH].
    destruct (DeletePolicyVersion svc _ s) as [[o [e|]] s1].
    + split.
      * exists (version_calls arn rest). reflexivity.
      * exists [], pv. split; reflexivity.
    + specialize (IH s1).
      destruct (deletePolicy_loop svc arn rest s1) as [[o' s2] t].
      destruct IH as [[more Hpre] Hres]. unfold calls_of, trace_of, result_of in *.
      cbn [fst snd map] in *. split.
      * exists more. rewrite Hpre. reflexivity.
      * destruct o' as [[e|]|p].
        -- destruct Hres as (t0 & pv' & -> & Hok).
           exists (Ev (delete_version_call arn pv) None :: t0), pv'.
           split; [reflexivity | exact Hok].
        -- destruct Hres as [Hc Hok]. split; [now rewrite Hc | exact Hok].
        -- destruct Hres as [-> Hok]. split; [reflexivity | exact Hok].
  - rewrite version_calls_cons_nil. split.
    + exists (version_calls arn rest). reflexivity.
    + split; reflexivity.
Qed.

(** [deletePolicy], path by path. *)
Lemma deletePolicy_unfold (s : St) :
  deletePolicy svc arn s =
    match ListPolicyVersions svc (mkListPolicyVersionsInput (Some (ARN_String arn))) s with
    | ((_, Some e), s1) =>
        (Return (None, Some e), s1, [Ev (list_versions_call arn) (Some e)])
    | ((None, None), s1) =>
        (Panic NilDereference, s1, [Ev (list_versions_call arn) None])
    | ((Some out, None), s1) =>
        match deletePolicy_loop svc arn (lpvo_Versions out) s1 with
        | (Panic p, s2, t) => (Panic p, s2, Ev (list_versions_call arn) None :: t)
        | (Return (Some e), s2, t) =>
            (Return (None, Some e), s2, Ev (list_versions_call arn) None :: t)
        | (Return None, s2, t) =>
            match DeletePolicy svc (mkDeletePolicyInput (Some (ARN_String arn))) s2 with
            | ((res, None), s3) =>
                (Return (res, None), s3,
                 Ev (list_versions_call arn) None :: t ++ [Ev (delete_policy_call arn) None])
            | ((res, Some e), s3) =>
                (match awserr_Code e with
                 | None => Panic (InterfaceConversion e)
                 | Some code =>
                     if String.eqb code ErrCodeNoSuchEntityException
                     then Return (res, None) else Return (None, Some e)
                 end, s3,
                 Ev (list_versions_call arn) None :: t ++ [Ev (delete_policy_call arn) (Some e)])
            end
        end
    end.
Proof.
  unfold deletePolicy, bind, invoke, deref, ret, panic, awssdk_String,
    list_versions_call, delete_policy_call.
  destruct (ListPolicyVersions svc _ s) as [[[out|] [e|]] s1]; cbn; try reflexivity.
  destruct (deletePolicy_loop svc arn (lpvo_Versions out) s1) as [[[[e|]|p] s2] t];
    cbn; rewrite ?app_nil_r; try reflexivity.
  destruct (DeletePolicy svc _ s2) as [[res [e|]] s3]; cbn.
  - destruct (awserr_Code e) as [code|]; cbn; [| reflexivity].
    destruct (String.eqb code ErrCodeNoSuchEntityException); cbn; reflexivity.
  - reflexivity.
Qed.


Ltac delete_paths s :=
  rewrite ?(deletePolicy_unfold s); unfold versions_listed;
  let out := fresh "out" in let e := fresh "e" in let s1 := fresh "s" in
  destruct (ListPolicyVersions svc _ s) as [[[out|] [e|]] s1];
  [ | let L := fresh "L" in
      pose proof (deletePolicy_loop_post (lpvo_Versions out) s1) as L;
      unfold loop_post in L;
      let e' := fresh "e" in let p := fresh "p" in
      let s2 := fresh "s" in let t := fresh "t" in
      destruct (deletePolicy_loop svc arn (lpvo_Versions out) s1) as [[[[e'|]|p] s2] t];
      [ | let res := fresh "res" in let e'' := fresh "e" in let s3 := fresh "s" in
          destruct (DeletePolicy svc _ s2) as [[res [e''|]] s3] | ]
    | | ];
  unfold calls_of, trace_of, result_of in *; cbn [fst snd map] in *.

Lemma all_succeeded_In (t : list event) (c : call) (e : error) :
  all_succeeded t -> ~ In (Ev c (Some e)) t.
Proof.
  unfold all_succeeded. rewrite forallb_forall. intros H Hin.
  specialize (H _ Hin). discriminate H.
Qed.

(** What [deletePolicy] answers after a call that failed: the error of the
    listing or of a [DeletePolicyVersion] is returned as it is; the error of
    [DeletePolicy] goes through the type assertion and the comparison of its
    code. *)
Lemma deletePolicy_failed_call (s : St) (c : call) (e : error) :
  In (Ev c (Some e)) (trace_of (deletePolicy svc arn s)) ->
  (c = list_versions_call arn /\
   result_of (deletePolicy svc arn s) = Return (None, Some e)) \/
  ((exists pv, c = delete_version_call arn pv) /\
   result_of (deletePolicy svc arn s) = Return (None, Some e)) \/
  (c = delete_policy_call arn /\
   exists res,
     result_of (deletePolicy svc arn s) =
       match awserr_Code e with
       | None => Panic (InterfaceConversion e)
       | Some code =>
           if String.eqb code ErrCodeNoSuchEntityException
           then Return (res, None) else Return (None, Some e)
       end).
Proof.
  delete_paths s; intros Hin.
  - destruct Hin as [Heq | []]. injection Heq as <- <-. left. split; reflexivity.
  - destruct L as [_ (t0 & pv & -> & Hok)].
    destruct Hin as [Heq | Hin]; [discriminate Heq |].
    apply in_app_or in Hin. destruct Hin as [Hin | [Heq | []]].
    + now apply all_succeeded_In in Hin.
    + injection Heq as <- <-. right. left. split; [exists pv |]; reflexivity.
  - destruct L as [_ [_ Hok]].
    destruct Hin as [Heq | Hin]; [discriminate Heq |].
    apply in_app_or in Hin. destruct Hin as [Hin | [Heq | []]].
    + now apply all_succeeded_In in Hin.
    + injection Heq as <- <-. right. right. split; [reflexivity | exists res; reflexivity].
  - destruct L as [_ [_ Hok]].
    destruct Hin as [Heq | Hin]; [discriminate Heq |].
    apply in_app_or in Hin. destruct Hin as [Hin | [Heq | []]].
    + now apply all_succeeded_In in Hin.
    + discriminate Heq.
  - destruct L as [_ [_ Hok]].
    destruct Hin as [Heq | Hin]; [discriminate Heq |].
    now apply all_succeeded_In in Hin.
  - destruct Hin as [Heq | []]. injection Heq as <- <-. left. split; reflexivity.
  - destruct Hin as [Heq | []]. discriminate Heq.
Qed.

Lemma delete_policy_call_not_list : delete_policy_call arn <> list_versions_call arn.
Proof. discriminate. Qed.

Lemma delete_policy_call_not_version (pv : PolicyVersion) :
  delete_policy_call arn <> delete_version_call arn pv.
Proof. discriminate. Qed.

Lemma list_call_not_version (pv : PolicyVersion) :
  list_versions_call arn <> delete_version_call arn pv.
Proof. discriminate. Qed.

(** X17: where [deletePolicy] looks at the code of an error.  A
    [NoSuchEntity] error is dropped only when it is the answer of the final
    [DeletePolicy] call, and then [deletePolicy] returns a nil error; a
    [NoSuchEntity] error answered by [ListPolicyVersions] or by a
    [DeletePolicyVersion] call is returned to the caller as it is. *)
Theorem deletePolicy_no_such_entity (s : St) (e : error) :
  awserr_Code e = Some ErrCodeNoSuchEntityException ->
  (In (Ev (delete_policy_call arn) (Some e)) (trace_of (deletePolicy svc arn s)) ->
   exists res, result_of (deletePolicy svc arn s) = Return (res, None)) /\
  (In (Ev (list_versions_call arn) (Some e)) (trace_of (deletePolicy svc arn s)) ->
   result_of (deletePolicy svc arn s) = Return (None, Some e)) /\
  (forall pv,
     In (Ev (delete_version_call arn pv) (Some e)) (trace_of (deletePolicy svc arn s)) ->
     result_of (deletePolicy svc arn s) = Return (None, Some e)).
Proof.
  intros Hcode. repeat split.
  - intros Hin. apply deletePolicy_failed_call in Hin.
    destruct Hin as [[Hc _] | [[[pv Hc] _] | [_ [res Hres]]]].
    + now apply delete_policy_call_not_list in Hc.
    + now apply delete_policy_call_not_version in Hc.
    + exists res. rewrite Hres, Hcode, String.eqb_refl. reflexivity.
  - intros Hin. apply deletePolicy_failed_call in Hin.
    destruct Hin as [[_ Hres] | [[_ Hres] | [Hc _]]]; try exact Hres.
    symmetry in Hc. now apply delete_policy_call_not_list in Hc.
  - intros pv Hin. apply deletePolicy_failed_call in Hin.
    destruct Hin as [[_ Hres] | [[_ Hres] | [Hc _]]]; try exact Hres.
    symmetry in Hc. now apply delete_policy_call_not_version in Hc.
Qed.

(** C9: [deletePolicy] panics on the type assertion, with the error as the value
    that failed to convert, exactly when its [DeletePolicy] call answered an
    error that does not implement [awserr.Error]; no error is returned then.
    So it can only return if the errors of [DeletePolicy] implement the
    interface. *)
Theorem deletePolicy_panics_on_unchecked_assertion (s : St) (e : error) :
  result_of (deletePolicy svc arn s) = Panic (InterfaceConversion e) <->
  awserr_Code e = None /\
  In (Ev (delete_policy_call arn) (Some e)) (trace_of (deletePolicy svc arn s)).
Proof.
  split.
  - delete_paths s; intros H; try discriminate H.
    + destruct (awserr_Code e2) as [code|] eqn:Hcode.
      * destruct (String.eqb code ErrCodeNoSuchEntityException); discriminate H.
      * injection H as <-. split; [exact Hcode |].
        right. apply in_or_app. right. left. reflexivity.
    + destruct L as [_ [-> _]]. discriminate H.
  - intros [Hcode Hin]. apply deletePolicy_failed_call in Hin.
    destruct Hin as [[Hc _] | [[[pv Hc] _] | [_ [res Hres]]]].
    + now apply delete_policy_call_not_list in Hc.
    + now apply delete_policy_call_not_version in Hc.
    + rewrite Hres, Hcode. reflexivity.
Qed.

(** The errors [deletePolicy] hands back unchanged. *)
Lemma deletePolicy_error_passthrough (s : St) (c : call) (e : error) :
  In (Ev c (Some e)) (trace_of (deletePolicy svc arn s)) ->
  (c = delete_policy_call arn ->
   exists code, awserr_Code e = Some code /\
                String.eqb code ErrCodeNoSuchEntityException = false) ->
  result_of (deletePolicy svc arn s) = Return (None, Some e).
Proof.
  intros Hin Hdp. apply deletePolicy_failed_call in Hin.
  destruct Hin as [[_ Hres] | [[_ Hres] | [Hc [res Hres]]]]; try exact Hres.
  destruct (Hdp Hc) as (code & Hcode & Hne).
  rewrite Hres, Hcode, Hne. reflexivity.
Qed.

End DeleteFacts.

(** ** The wrappers that marshal and call *)

Section WrapperFacts.

Context {PolicyDocument St : Type}.
Variable json_Marshal : PolicyDocument -> string + error.
Variable awsarn_Parse : string -> ARN + error.
Variable svc : IAMAPI St.

Lemma createPolicy_marshalled (polName polDesc : string) (pd : PolicyDocument) (b : string) (s : St) :
  json_Marshal pd = inl b ->
  createPolicy json_Marshal svc polName polDesc pd s =
    (Return (passed_on (fst (CreatePolicy svc
               (mkCreatePolicyInput (Some b) (Some polDesc) (Some polName)) s))),
     snd (CreatePolicy svc (mkCreatePolicyInput (Some b) (Some polDesc) (Some polName)) s),
     [Ev (CallCreatePolicy (mkCreatePolicyInput (Some b) (Some polDesc) (Some polName)))
         (snd (fst (CreatePolicy svc
               (mkCreatePolicyInput (Some b) (Some polDesc) (Some polName)) s)))]).
Proof.
  intros Hb. unfold createPolicy, bind, invoke, awssdk_String, passed_on. rewrite Hb.
  destruct (CreatePolicy svc _ s) as [[out [e|]] s1]; reflexivity.
Qed.

Lemma createPolicy_not_marshalled (polName polDesc : string) (pd : PolicyDocument) (e : error) (s : St) :
  json_Marshal pd = inr e ->
  createPolicy json_Marshal svc polName polDesc pd s = (Return (None, Some e), s, []).
Proof. intros He. unfold createPolicy. rewrite He. reflexivity. Qed.

Lemma updatePolicy_marshalled (policyArn : ARN) (pd : PolicyDocument) (b : string) (s : St) :
  json_Marshal pd = inl b ->
  updatePolicy json_Marshal svc policyArn pd s =
    (Return (passed_on (fst (CreatePolicyVersion svc
               (mkCreatePolicyVersionInput (Some b) (Some (ARN_String policyArn)) (Some true)) s))),
     snd (CreatePolicyVersion svc
               (mkCreatePolicyVersionInput (Some b) (Some (ARN_String policyArn)) (Some true)) s),
     [Ev (CallCreatePolicyVersion
            (mkCreatePolicyVersionInput (Some b) (Some (ARN_String policyArn)) (Some true)))
         (snd (fst (CreatePolicyVersion svc
               (mkCreatePolicyVersionInput (Some b) (Some (ARN_String policyArn)) (Some true)) s)))]).
Proof.
  intros Hb. unfold updatePolicy, bind, invoke, awssdk_String, awssdk_Bool, passed_on. rewrite Hb.
  destruct (CreatePolicyVersion svc _ s) as [[out [e|]] s1]; reflexivity.
Qed.

Lemma updatePolicy_not_marshalled (policyArn : ARN) (pd : PolicyDocument) (e : error) (s : St) :
  json_Marshal pd = inr e ->
  updatePolicy json_Marshal svc policyArn pd s = (Return (None, Some e), s, []).
Proof. intros He. unfold updatePolicy. rewrite He. reflexivity. Qed.

Lemma getPolicy_run (arn : ARN) (s : St) :
  getPolicy svc arn s =
    (Return (passed_on (fst (GetPolicy svc (mkGetPolicyInput (Some (ARN_String arn))) s))),
     snd (GetPolicy svc (mkGetPolicyInput (Some (ARN_String arn))) s),
     [Ev (CallGetPolicy (mkGetPolicyInput (Some (ARN_String arn))))
         (snd (fst (GetPolicy svc (mkGetPolicyInput (Some (ARN_String arn))) s)))]).
Proof.
  unfold getPolicy, bind, invoke, awssdk_String, passed_on.
  destruct (GetPolicy svc _ s) as [[out [e|]] s1]; reflexivity.
Qed.

Lemma getPolicyVersion_run (pol : Policy) (s : St) :
  getPolicyVersion svc (mkGetPolicyOutput (Some pol)) s =
    (Return (passed_on (fst (GetPolicyVersion svc
               (mkGetPolicyVersionInput (pol_Arn pol) (pol_DefaultVersionId pol)) s))),
     snd (GetPolicyVersion svc
               (mkGetPolicyVersionInput (pol_Arn pol) (pol_DefaultVersionId pol)) s),
     [Ev (CallGetPolicyVersion
            (mkGetPolicyVersionInput (pol_Arn pol) (pol_DefaultVersionId pol)))
         (snd (fst (GetPolicyVersion svc
               (mkGetPolicyVersionInput (pol_Arn pol) (pol_DefaultVersionId pol)) s)))]).
Proof.
  unfold getPolicyVersion, bind, invoke, deref, ret, passed_on. cbn.
  destruct (GetPolicyVersion svc _ s) as [[out [e|]] s1]; reflexivity.
Qed.

Lemma getPolicyVersion_nil (s : St) :
  getPolicyVersion svc (mkGetPolicyOutput None) s = (Panic NilDereference, s, []).
Proof. reflexivity. Qed.

(** A single failed call whose answer is passed on. *)
Lemma passed_on_failure {O : Type} (r : response O) (c c' : call) (e : error) :
  In (Ev c (Some e)) [Ev c' (snd r)] -> passed_on r = (None, Some e).
Proof.
  intros [Heq | []]. injection Heq as _ Herr. unfold passed_on. now rewrite Herr.
Qed.

(** C7: [createPolicy] and [updatePolicy] marshal the document and make one
    call, [CreatePolicy] with that JSON text, the description and the name,
    or [CreatePolicyVersion] with that JSON text, the printed ARN and
    [SetAsDefault] true, and answer what the call answered; if marshalling
    fails they make no call and return the error of the marshalling. *)
Theorem marshalled_document_is_sent (pd : PolicyDocument) (s : St) :
  (forall b, json_Marshal pd = inl b ->
     (forall polName polDesc,
        calls_of (createPolicy json_Marshal svc polName polDesc pd s) =
          [CallCreatePolicy (mkCreatePolicyInput (Some b) (Some polDesc) (Some polName))] /\
        result_of (createPolicy json_Marshal svc polName polDesc pd s) =
          Return (passed_on (fst (CreatePolicy svc
                    (mkCreatePolicyInput (Some b) (Some polDesc) (Some polName)) s)))) /\
     (forall policyArn,
        calls_of (updatePolicy json_Marshal svc policyArn pd s) =
          [CallCreatePolicyVersion
             (mkCreatePolicyVersionInput (Some b) (Some (ARN_String policyArn)) (Some true))] /\
        result_of (updatePolicy json_Marshal svc policyArn pd s) =
          Return (passed_on (fst (CreatePolicyVersion svc
                    (mkCreatePolicyVersionInput (Some b) (Some (ARN_String policyArn))
                       (Some true)) s))))) /\
  (forall e, json_Marshal pd = inr e ->
     (forall polName polDesc,
        createPolicy json_Marshal svc polName polDesc pd s = (Return (None, Some e), s, [])) /\
     (forall policyArn,
        updatePolicy json_Marshal svc policyArn pd s = (Return (None, Some e), s, []))).
Proof.
  split.
  - intros b Hb. split.
    + intros polName polDesc. rewrite (createPolicy_marshalled _ _ _ _ _ Hb).
      split; reflexivity.
    + intros policyArn. rewrite (updatePolicy_marshalled _ _ _ _ Hb).
      split; reflexivity.
  - intros e He. split.
    + intros polName polDesc. now apply createPolicy_not_marshalled.
    + intros policyArn. now apply updatePolicy_not_marshalled.
Qed.

Lemma createPolicy_error_passthrough (polName polDesc : string) (pd : PolicyDocument)
    (s : St) (c : call) (e : error) :
  In (Ev c (Some e)) (trace_of (createPolicy json_Marshal svc polName polDesc pd s)) ->
  result_of (createPolicy json_Marshal svc polName polDesc pd s) = Return (None, Some e).
Proof.
  destruct (json_Marshal pd) as [b|e0] eqn:Hm.
  - rewrite (createPolicy_marshalled _ _ _ _ _ Hm). unfold trace_of, result_of. cbn [fst snd].
    intros Hin. now rewrite (passed_on_failure _ _ _ _ Hin).
  - rewrite (createPolicy_not_marshalled _ _ _ _ _ Hm). intros [].
Qed.

Lemma updatePolicy_error_passthrough (policyArn : ARN) (pd : PolicyDocument)
    (s : St) (c : call) (e : error) :
  In (Ev c (Some e)) (trace_of (updatePolicy json_Marshal svc policyArn pd s)) ->
  result_of (updatePolicy json_Marshal svc policyArn pd s) = Return (None, Some e).
Proof.
  destruct (json_Marshal pd) as [b|e0] eqn:Hm.
  - rewrite (updatePolicy_marshalled _ _ _ _ Hm). unfold trace_of, result_of. cbn [fst snd].
    intros Hin. now rewrite (passed_on_failure _ _ _ _ Hin).
  - rewrite (updatePolicy_not_marshalled _ _ _ _ Hm). intros [].
Qed.

Lemma getPolicy_error_passthrough (arn : ARN) (s : St) (c : call) (e : error) :
  In (Ev c (Some e)) (trace_of (getPolicy svc arn s)) ->
  result_of (getPolicy svc arn s) = Return (None, Some e).
Proof.
  rewrite getPolicy_run. unfold trace_of, result_of. cbn [fst snd].
  intros Hin. now rewrite (passed_on_failure _ _ _ _ Hin).
Qed.

Lemma getPolicyVersion_error_passthrough (po : GetPolicyOutput) (s : St) (c : call) (e : error) :
  In (Ev c (Some e)) (trace_of (getPolicyVersion svc po s)) ->
  result_of (getPolicyVersion svc po s) = Return (None, Some e).
Proof.
  destruct po as [[pol|]].
  - rewrite getPolicyVersion_run. unfold trace_of, result_of. cbn [fst snd].
    intros Hin. now rewrite (passed_on_failure _ _ _ _ Hin).
  - rewrite getPolicyVersion_nil. intros [].
Qed.

(** Error passthrough (the part of C6 the code keeps): when an SDK call made
    by [createPolicy], [updatePolicy], [getPolicy], [getPolicyVersion] or
    [deletePolicy] answers an error, the helper returns a nil output and that
    very error; for the final [DeletePolicy] call of [deletePolicy] this is so
    when the error implements [awserr.Error] with a code other than
    [NoSuchEntity]. *)
Theorem sdk_errors_returned_unchanged (s : St) (c : call) (e : error) :
  (forall polName polDesc pd,
     In (Ev c (Some e)) (trace_of (createPolicy json_Marshal svc polName polDesc pd s)) ->
     result_of (createPolicy json_Marshal svc polName polDesc pd s) = Return (None, Some e)) /\
  (forall policyArn pd,
     In (Ev c (Some e)) (trace_of (updatePolicy json_Marshal svc policyArn pd s)) ->
     result_of (updatePolicy json_Marshal svc policyArn pd s) = Return (None, Some e)) /\
  (forall arn,
     In (Ev c (Some e)) (trace_of (getPolicy svc arn s)) ->
     result_of (getPolicy svc arn s) = Return (None, Some e)) /\
  (forall po,
     In (Ev c (Some e)) (trace_of (getPolicyVersion svc po s)) ->
     result_of (getPolicyVersion svc po s) = Return (None, Some e)) /\
  (forall arn,
     In (Ev c (Some e)) (trace_of (deletePolicy svc arn s)) ->
     (c = delete_policy_call arn ->
      exists code, awserr_Code e = Some code /\
                   String.eqb code ErrCodeNoSuchEntityException = false) ->
     result_of (deletePolicy svc arn s) = Return (None, Some e)).
Proof.
  repeat split; intros.
  - now apply (createPolicy_error_passthrough _ _ _ _ c).
  - now apply (updatePolicy_error_passthrough _ _ _ c).
  - now apply (getPolicy_error_passthrough _ _ c).
  - now apply (getPolicyVersion_error_passthrough _ _ c).
  - now apply (deletePolicy_error_passthrough _ _ _ c).
Qed.

End WrapperFacts.

(** ** The methods of PolicyInstance *)

Section MethodFacts.

Context {PolicyDocument St : Type}.
Variable json_Marshal : PolicyDocument -> string + error.
Variable awsarn_Parse : string -> ARN + error.
Variable svc : IAMAPI St.
Implicit Types (p : PolicyInstance PolicyDocument) (s : St).

(** [Create], path by path. *)
Lemma Create_unfold p s :
  Create json_Marshal awsarn_Parse svc (p, s) =
    match createPolicy json_Marshal svc (pi_Name p) (pi_Description p) (pi_PolicyDocument p) s with
    | (Panic q, s1, t) => (Panic q, (p, s1), t)
    | (Return (_, Some e), s1, t) => (Return (Some e), (p, s1), t)
    | (Return (None, None), s1, t) => (Panic NilDereference, (p, s1), t)
    | (Return (Some out, None), s1, t) =>
        match cpo_Policy out with
        | None => (Panic NilDereference, (p, s1), t)
        | Some pol =>
            match awsarn_Parse (awssdk_StringValue (pol_Arn pol)) with
            | inr e => (Return (Some e), (p, s1), t)
            | inl newarn =>
                (Return None,
                 (mkPolicyInstance (pi_Name p) (pi_Description p) (pi_PolicyDocument p) newarn, s1),
                 t)
            end
        end
    end.
Proof.
  unfold Create, bind, receiver, lift, deref, ret, panic, set_receiver. cbn [fst snd].
  destruct (createPolicy _ _ _ _ _ s) as [[[[[[[pol|]]|] [e|]]|q] s1] t]; cbn;
    rewrite ?app_nil_r; try reflexivity.
  destruct (awsarn_Parse _) as [newarn|e]; cbn; rewrite ?app_nil_r; reflexivity.
Qed.

Lemma Update_unfold p s :
  Update json_Marshal svc (p, s) =
    if String.eqb (ARN_String (pi_arn p)) (ARN_String zero_ARN)
    then (Return (Some (InstanceNotYetCreatedError
                          ("Policy '" ++ pi_Name p ++ "' not yet created")%string)),
          (p, s), [])
    else returning_error (updatePolicy json_Marshal svc (pi_arn p) (pi_PolicyDocument p)) (p, s).
Proof.
  unfold Update, bind. rewrite IsCreated_run. unfold receiver.
  destruct (String.eqb _ _); cbn [negb].
  - reflexivity.
  - unfold lift, returning_error, ret. cbn [fst snd].
    destruct (updatePolicy _ _ _ _ s) as [[[[out [e|]]|q] s1] t]; cbn;
      rewrite ?app_nil_r; reflexivity.
Qed.

Lemma Delete_unfold p s :
  Delete svc (p, s) =
    if String.eqb (ARN_String (pi_arn p)) (ARN_String zero_ARN)
    then (Return (Some (InstanceNotYetCreatedError
                          ("Policy '" ++ pi_Name p ++ "' not yet created")%string)),
          (p, s), [])
    else returning_error (deletePolicy svc (pi_arn p)) (p, s).
Proof.
  unfold Delete, bind. rewrite IsCreated_run. unfold receiver.
  destruct (String.eqb _ _); cbn [negb].
  - reflexivity.
  - unfold lift, returning_error, ret. cbn [fst snd].
    destruct (deletePolicy _ _ s) as [[[[out [e|]]|q] s1] t]; cbn;
      rewrite ?app_nil_r; reflexivity.
Qed.

Lemma returning_error_receiver {O : Type} (m : M St (response O)) p s :
  fst (state_of (returning_error m (p, s))) = p.
Proof.
  unfold returning_error, state_of. cbn [fst snd].
  destruct (m s) as [[[[out err]|q] s1] t]; reflexivity.
Qed.

Lemma returning_error_trace {O : Type} (m : M St (response O)) p s :
  trace_of (returning_error m (p, s)) = trace_of (m s).
Proof.
  unfold returning_error, trace_of. cbn [fst snd].
  destruct (m s) as [[[[out err]|q] s1] t]; reflexivity.
Qed.

Lemma deletePolicy_first_call (arn : ARN) s :
  exists err rest,
    trace_of (deletePolicy svc arn s) = Ev (list_versions_call arn) err :: rest.
Proof.
  rewrite deletePolicy_unfold. unfold trace_of.
  destruct (ListPolicyVersions svc _ s) as [[[out|] [e|]] s1]; cbn [snd];
    try (eexists; eexists; reflexivity).
  destruct (deletePolicy_loop svc arn (lpvo_Versions out) s1) as [[[[e|]|q] s2] t];
    cbn [snd]; try (eexists; eexists; reflexivity).
  destruct (DeletePolicy svc _ s2) as [[res [e|]] s3]; cbn [snd];
    eexists; eexists; reflexivity.
Qed.

Lemma Update_keeps_receiver p s :
  fst (state_of (Update json_Marshal svc (p, s))) = p.
Proof.
  rewrite Update_unfold.
  destruct (String.eqb _ _); [reflexivity | apply returning_error_receiver].
Qed.

Lemma Delete_keeps_receiver p s :
  fst (state_of (Delete svc (p, s))) = p.
Proof.
  rewrite Delete_unfold.
  destruct (String.eqb _ _); [reflexivity | apply returning_error_receiver].
Qed.

Ltac create_paths p s :=
  rewrite !(Create_unfold p s); unfold result_of, state_of;
  let pol := fresh "pol" in let e := fresh "e" in let q := fresh "q" in
  let s1 := fresh "s" in let t := fresh "t" in
  destruct (createPolicy json_Marshal svc (pi_Name p) (pi_Description p)
              (pi_PolicyDocument p) s) as [[[[[[[pol|]]|] [e|]]|q] s1] t];
  cbn [fst snd cpo_Policy];
  try (let newarn := fresh "newarn" in let e' := fresh "e" in
       let Hp := fresh "Hp" in
       destruct (awsarn_Parse (awssdk_StringValue (pol_Arn pol))) as [newarn|e'] eqn:Hp;
       cbn [fst snd pi_arn pi_Name pi_Description pi_PolicyDocument]).

Lemma Create_error_keeps_arn p s :
  forall e,
    result_of (Create json_Marshal awsarn_Parse svc (p, s)) = Return (Some e) ->
    pi_arn (fst (state_of (Create json_Marshal awsarn_Parse svc (p, s)))) = pi_arn p.
Proof.
  create_paths p s; intros e1 H; try reflexivity; discriminate H.
Qed.

Lemma Create_success_arn p s :
  result_of (Create json_Marshal awsarn_Parse svc (p, s)) = Return None ->
  exists out pol,
    result_of (createPolicy json_Marshal svc (pi_Name p) (pi_Description p)
                 (pi_PolicyDocument p) s) = Return (Some out, None) /\
    cpo_Policy out = Some pol /\
    awsarn_Parse (awssdk_StringValue (pol_Arn pol)) =
      inl (pi_arn (fst (state_of (Create json_Marshal awsarn_Parse svc (p, s))))).
Proof.
  create_paths p s; intros H; try discriminate H.
  exists (mkCreatePolicyOutput (Some pol)), pol. repeat split. exact Hp.
Qed.

Lemma Create_keeps_fields p s :
  pi_Name (fst (state_of (Create json_Marshal awsarn_Parse svc (p, s)))) = pi_Name p /\
  pi_Description (fst (state_of (Create json_Marshal awsarn_Parse svc (p, s)))) =
    pi_Description p /\
  pi_PolicyDocument (fst (state_of (Create json_Marshal awsarn_Parse svc (p, s)))) =
    pi_PolicyDocument p.
Proof.
  create_paths p s; repeat split.
Qed.

(** C8: when [Create] returns an error the receiver is as it was, its [arn]
    included; when it returns nil the [arn] is what [awsarn.Parse] made of the
    ARN in the output of [CreatePolicy]; and whatever they return (or if they
    panic), [Create] leaves [Name], [Description] and [PolicyDocument] as they
    were and [Update] and [Delete] leave the whole receiver as it was. *)
Theorem Create_sets_arn_on_success_only p s :
  (forall e,
     result_of (Create json_Marshal awsarn_Parse svc (p, s)) = Return (Some e) ->
     pi_arn (fst (state_of (Create json_Marshal awsarn_Parse svc (p, s)))) = pi_arn p) /\
  (result_of (Create json_Marshal awsarn_Parse svc (p, s)) = Return None ->
   exists out pol,
     result_of (createPolicy json_Marshal svc (pi_Name p) (pi_Description p)
                  (pi_PolicyDocument p) s) = Return (Some out, None) /\
     cpo_Policy out = Some pol /\
     awsarn_Parse (awssdk_StringValue (pol_Arn pol)) =
       inl (pi_arn (fst (state_of (Create json_Marshal awsarn_Parse svc (p, s)))))) /\
  (pi_Name (fst (state_of (Create json_Marshal awsarn_Parse svc (p, s)))) = pi_Name p /\
   pi_Description (fst (state_of (Create json_Marshal awsarn_Parse svc (p, s)))) =
     pi_Description p /\
   pi_PolicyDocument (fst (state_of (Create json_Marshal awsarn_Parse svc (p, s)))) =
     pi_PolicyDocument p) /\
  fst (state_of (Update json_Marshal svc (p, s))) = p /\
  fst (state_of (Delete svc (p, s))) = p.
Proof.
  split; [exact (Create_error_keeps_arn p s) |].
  split; [exact (Create_success_arn p s) |].
  split; [exact (Create_keeps_fields p s) |].
  split; [exact (Update_keeps_receiver p s) | exact (Delete_keeps_receiver p s)].
Qed.

(** C1, for [Read]: the method makes no SDK call at all; it panics with the
    text [Implement me], leaving receiver and client as they were. *)
Theorem Read_is_not_implemented p s :
  Read svc (p, s) = (Panic (PanicString "Implement me"), (p, s), []).
Proof. reflexivity. Qed.

End MethodFacts.

(** ** The theorems at work on the sample clients *)


(** X17 on a policy that vanishes before the final call: the [NoSuchEntity]
    answer of [DeletePolicy] is dropped. *)
Lemma deletePolicy_no_such_entity_at_delete :
  exists res, result_of (deletePolicy gone_at_delete readers_arn 0) = Return (res, None).
Proof.
  apply (proj1 (deletePolicy_no_such_entity gone_at_delete readers_arn 0
                  no_such_entity eq_refl)).
  vm_compute. right. right. right. right. left. reflexivity.
Defined.

(** C4 fails here: deleting a policy that does not exist.
    [ListPolicyVersions] answers [NoSuchEntity] and [deletePolicy] returns
    that error, not nil; the check of the code, made for the final call only,
    is never reached. *)
Lemma deletePolicy_no_such_entity_at_listing :
  awserr_Code no_such_entity = Some ErrCodeNoSuchEntityException /\
  trace_of (deletePolicy policy_gone readers_arn 0) =
    [Ev (list_versions_call readers_arn) (Some no_such_entity)] /\
  result_of (deletePolicy policy_gone readers_arn 0) = Return (None, Some no_such_entity).
Proof. repeat split. Qed.

(** C9 on a client whose [DeletePolicy] answers a plain error. *)
Lemma deletePolicy_panics_on_connection_reset :
  result_of (deletePolicy broken_transport readers_arn 0) =
    Panic (InterfaceConversion connection_reset).
Proof.
  apply (proj2 (deletePolicy_panics_on_unchecked_assertion broken_transport readers_arn 0
                  connection_reset)).
  split; [reflexivity |].
  vm_compute. right. right. right. right. left. reflexivity.
Defined.

(** The [DeleteConflict] error of [DeletePolicy] comes back as it is. *)
Lemma sdk_errors_returned_unchanged_still_attached :
  result_of (deletePolicy still_attached readers_arn 0) = Return (None, Some delete_conflict).
Proof.
  apply (proj2 (proj2 (proj2 (proj2
           (sdk_errors_returned_unchanged text_Marshal still_attached 0
              (delete_policy_call readers_arn) delete_conflict)))) readers_arn).
  - vm_compute. right. right. right. right. left. reflexivity.
  - intros _. exists "DeleteConflict". split; reflexivity.
Defined.

(** C6 fails here: [DeletePolicy] answered an error that is no
    [awserr.Error], and [deletePolicy] did not return that error; it
    panicked on the type assertion. *)
Lemma deletePolicy_loses_foreign_error :
  trace_of (deletePolicy broken_transport readers_arn 0) =
    [Ev (list_versions_call readers_arn) None;
     Ev (delete_version_call readers_arn v2) None;
     Ev (delete_version_call readers_arn v3) None;
     Ev (delete_version_call readers_arn v4) None;
     Ev (delete_policy_call readers_arn) (Some connection_reset)] /\
  result_of (deletePolicy broken_transport readers_arn 0) =
    Panic (InterfaceConversion connection_reset).
Proof. split; reflexivity. Qed.

(** C7 on a document that marshals. *)
Lemma marshalled_document_is_sent_readers :
  calls_of (createPolicy text_Marshal healthy "readers" "read access" "{}" 0) =
    [CallCreatePolicy (mkCreatePolicyInput (Some "{}") (Some "read access") (Some "readers"))] /\
  result_of (createPolicy text_Marshal healthy "readers" "read access" "{}" 0) =
    Return (passed_on (fst (CreatePolicy healthy
              (mkCreatePolicyInput (Some "{}") (Some "read access") (Some "readers")) 0))).
Proof.
  apply (proj1 (proj1 (marshalled_document_is_sent text_Marshal healthy "{}" 0)
                  "{}" eq_refl)).
Defined.

(** C8 on a creation that succeeds. *)
Lemma Create_sets_arn_readers :
  exists out pol,
    result_of (createPolicy text_Marshal healthy "readers" "read access" "{}" 0) =
      Return (Some out, None) /\
    cpo_Policy out = Some pol /\
    readers_Parse (awssdk_StringValue (pol_Arn pol)) = inl readers_arn.
Proof.
  apply (proj1 (proj2
           (Create_sets_arn_on_success_only text_Marshal readers_Parse healthy readers_new 0))).
  reflexivity.
Defined.

(** ** Further facts on policy.go *)

Section MoreDeleteFacts.

Context {St : Type}.
Variable svc : IAMAPI St.
Variable arn : ARN.

(** The calls made are an initial segment of those of a complete deletion. *)
Lemma deletePolicy_calls_prefix (s : St) :
  exists rest,
    complete_delete_calls arn (versions_listed svc arn s) =
      calls_of (deletePolicy svc arn s) ++ rest.
Proof.
  rewrite (deletePolicy_unfold svc arn s). unfold versions_listed, complete_delete_calls, calls_of, trace_of.
  destruct (ListPolicyVersions svc _ s) as [[[out|] [e|]] s1]; cbn [fst snd map];
    try (eexists; reflexivity).
  pose proof (deletePolicy_loop_post svc arn (lpvo_Versions out) s1) as [[more Hpre] Hres].
  unfold calls_of, trace_of, result_of in *.
  destruct (deletePolicy_loop svc arn (lpvo_Versions out) s1) as [[[[e|]|q] s2] t];
    cbn [fst snd map] in *.
  - exists (more ++ [delete_policy_call arn]). rewrite Hpre, <- app_assoc. reflexivity.
  - destruct Hres as [Hc _].
    destruct (DeletePolicy svc _ s2) as [[res [e|]] s3]; cbn [fst snd map];
      rewrite map_app, Hc; exists []; now rewrite app_nil_r.
  - exists (more ++ [delete_policy_call arn]). rewrite Hpre, <- app_assoc. reflexivity.
Qed.

Lemma complete_delete_calls_length (versions : list (option PolicyVersion)) :
  length (complete_delete_calls arn versions) =
    length (filter non_default (listed versions)) + 2.
Proof.
  unfold complete_delete_calls, version_calls. cbn [length].
  rewrite length_app, length_map. cbn [length]. lia.
Qed.

Lemma complete_delete_calls_PolicyArn (versions : list (option PolicyVersion)) (c : call) :
  In c (complete_delete_calls arn versions) -> call_PolicyArn c = Some (ARN_String arn).
Proof.
  unfold complete_delete_calls, version_calls. intros [<- | Hin]; [reflexivity |].
  apply in_app_or in Hin. destruct Hin as [Hin | [<- | []]]; [| reflexivity].
  apply in_map_iff in Hin. destruct Hin as (pv & <- & _). reflexivity.
Qed.

Lemma version_calls_not_delete_policy (versions : list (option PolicyVersion)) :
  ~ In (delete_policy_call arn) (version_calls arn versions).
Proof.
  unfold version_calls. intros Hin. apply in_map_iff in Hin.
  destruct Hin as (pv & Heq & _). discriminate Heq.
Qed.

(** The loop panics only at a nil entry. *)
Lemma deletePolicy_loop_panic (versions : list (option PolicyVersion)) :
  forall (s : St) (q : panic_value),
    result_of (deletePolicy_loop svc arn versions s) = Panic q -> In None versions.
Proof.
  induction versions as [|[pv|] rest IH]; intros s q.
  - discriminate.
  - rewrite deletePolicy_loop_some. destruct (non_default pv).
    + destruct (DeletePolicyVersion svc _ s) as [[o [e|]] s1]; [discriminate |].
      specialize (IH s1 q). unfold result_of in *.
      destruct (deletePolicy_loop svc arn rest s1) as [[o' s2] t]. cbn [fst] in *.
      intros H. right. now apply IH.
    + intros H. right. exact (IH s q H).
  - intros _. left. reflexivity.
Qed.

Ltac delete_cases s :=
  rewrite ?(deletePolicy_unfold svc arn s); unfold versions_listed;
  let out := fresh "out" in let e := fresh "e" in let s1 := fresh "s" in
  destruct (ListPolicyVersions svc _ s) as [[[out|] [e|]] s1];
  [ | let L := fresh "L" in
      pose proof (deletePolicy_loop_post svc arn (lpvo_Versions out) s1) as L;
      let P := fresh "P" in
      pose proof (deletePolicy_loop_panic (lpvo_Versions out) s1) as P;
      unfold loop_post in L;
      let e' := fresh "e" in let p := fresh "p" in
      let s2 := fresh "s" in let t := fresh "t" in
      destruct (deletePolicy_loop svc arn (lpvo_Versions out) s1) as [[[[e'|]|p] s2] t];
      [ | let res := fresh "res" in let e'' := fresh "e" in let s3 := fresh "s" in
          destruct (DeletePolicy svc _ s2) as [[res [e''|]] s3] | ]
    | | ];
  unfold calls_of, trace_of, result_of in *; cbn [fst snd map] in *.






(** X2: [deletePolicy] makes at least one call and at most two more than
    there are listed versions whose default flag reads false, and every call
    it makes carries the printed ARN it was given as [PolicyArn]. *)
Theorem deletePolicy_call_budget (s : St) :
  1 <= length (calls_of (deletePolicy svc arn s)) /\
  length (calls_of (deletePolicy svc arn s)) <=
    length (filter non_default (listed (versions_listed svc arn s))) + 2 /\
  (forall c, In c (calls_of (deletePolicy svc arn s)) ->
             call_PolicyArn c = Some (ARN_String arn)).
Proof.
  destruct (deletePolicy_calls_prefix s) as [rest Hpre].
  destruct (deletePolicy_first_call svc arn s) as (err & t & Ht).
  repeat split.
  - unfold calls_of. rewrite Ht. cbn [map length]. lia.
  - rewrite <- complete_delete_calls_length, Hpre, length_app. lia.
  - intros c Hin. apply (complete_delete_calls_PolicyArn (versions_listed svc arn s)).
    rewrite Hpre. apply in_or_app. now left.
Qed.

(** X3: when [deletePolicy] returns a nil error, every call of a complete
    deletion was made, all before [DeletePolicy] succeeded, and [DeletePolicy]
    answered either no error or one whose code is [NoSuchEntity]; when it
    returns an error, the output is nil and the error is that of the last
    call made. *)
Theorem deletePolicy_answers (s : St) :
  (forall out,
     result_of (deletePolicy svc arn s) = Return (out, None) ->
     calls_of (deletePolicy svc arn s) =
       complete_delete_calls arn (versions_listed svc arn s) /\
     exists t err,
       trace_of (deletePolicy svc arn s) = t ++ [Ev (delete_policy_call arn) err] /\
       all_succeeded t /\
       match err with
       | None => True
       | Some e => awserr_Code e = Some ErrCodeNoSuchEntityException
       end) /\
  (forall out e,
     result_of (deletePolicy svc arn s) = Return (out, Some e) ->
     out = None /\
     exists t c, trace_of (deletePolicy svc arn s) = t ++ [Ev c (Some e)]).
Proof.
  unfold complete_delete_calls.
  delete_cases s; split; intros o; try discriminate.
  - intros e' H. injection H as <- <-. split; [reflexivity |].
    exists [], (list_versions_call arn). reflexivity.
  - intros e' H. injection H as <- <-. split; [reflexivity |].
    destruct L as [_ (t0 & pv & -> & _)].
    exists (Ev (list_versions_call arn) None :: t0), (delete_version_call arn pv). reflexivity.
  - destruct L as [_ [Hc Hok]]. intros H.
    destruct (awserr_Code e1) as [code|] eqn:Hcode; [| discriminate H].
    destruct (String.eqb code ErrCodeNoSuchEntityException) eqn:Hnse; [| discriminate H].
    split.
    + cbn [ev_call]. rewrite map_app, Hc. reflexivity.
    + exists (Ev (list_versions_call arn) None :: t), (Some e1).
      repeat split; [exact Hok |]. apply String.eqb_eq in Hnse. now subst code.
  - intros e' H.
    destruct (awserr_Code e1) as [code|] eqn:Hcode; [| discriminate H].
    destruct (String.eqb code ErrCodeNoSuchEntityException) eqn:Hnse; [discriminate H |].
    injection H as <- <-. split; [reflexivity |].
    exists (Ev (list_versions_call arn) None :: t), (delete_policy_call arn). reflexivity.
  - destruct L as [_ [Hc Hok]]. intros H. split.
    + cbn [ev_call]. rewrite map_app, Hc. reflexivity.
    + exists (Ev (list_versions_call arn) None :: t), None. repeat split. exact Hok.
  - intros e' H. injection H as <- <-. split; [reflexivity |].
    exists [], (list_versions_call arn). reflexivity.
Qed.

(** X4: [deletePolicy] panics in two ways only: on the type assertion, or
    with a nil dereference; the latter happens only when the listing answered
    a nil output without an error or holds a nil entry, every call made until
    then succeeded, and [DeletePolicy] was not called. *)
Theorem deletePolicy_panics (s : St) (q : panic_value) :
  result_of (deletePolicy svc arn s) = Panic q ->
  (exists e, q = InterfaceConversion e) \/
  (q = NilDereference /\
   all_succeeded (trace_of (deletePolicy svc arn s)) /\
   ~ In (delete_policy_call arn) (calls_of (deletePolicy svc arn s)) /\
   (fst (fst (ListPolicyVersions svc
                (mkListPolicyVersionsInput (Some (ARN_String arn))) s)) = None \/
    In None (versions_listed svc arn s))).
Proof.
  delete_cases s; intros H; try discriminate H.
  - destruct (awserr_Code e1) as [code|] eqn:Hcode.
    + destruct (String.eqb code ErrCodeNoSuchEntityException); discriminate H.
    + injection H as <-. left. exists e1. reflexivity.
  - destruct L as [[more Hpre] [-> Hok]]. injection H as <-. right.
    repeat split.
    + exact Hok.
    + intros [Heq | Hin]; [discriminate Heq |].
      apply (version_calls_not_delete_policy (lpvo_Versions out)).
      rewrite Hpre. apply in_or_app. now left.
    + right. exact (P NilDereference eq_refl).
  - injection H as <-. right. repeat split.
    + intros [Heq | []]. discriminate Heq.
    + left. reflexivity.
Qed.

End MoreDeleteFacts.

Section MoreMethodFacts.

Context {PolicyDocument St : Type}.
Variable json_Marshal : PolicyDocument -> string + error.
Variable awsarn_Parse : string -> ARN + error.
Variable svc : IAMAPI St.
Implicit Types (p : PolicyInstance PolicyDocument) (s : St).

(** The two ways [createPolicy] runs. *)
Lemma createPolicy_cases (polName polDesc : string) (pd : PolicyDocument) (s : St) :
  (exists e, json_Marshal pd = inr e /\
             createPolicy json_Marshal svc polName polDesc pd s = (Return (None, Some e), s, [])) \/
  (exists b out err s1,
     json_Marshal pd = inl b /\
     CreatePolicy svc (mkCreatePolicyInput (Some b) (Some polDesc) (Some polName)) s =
       ((out, err), s1) /\
     createPolicy json_Marshal svc polName polDesc pd s =
       (Return (passed_on (out, err)), s1,
        [Ev (CallCreatePolicy (mkCreatePolicyInput (Some b) (Some polDesc) (Some polName))) err])).
Proof.
  destruct (json_Marshal pd) as [b|e] eqn:Hm.
  - right. rewrite (createPolicy_marshalled json_Marshal svc _ _ _ _ s Hm).
    destruct (CreatePolicy svc _ s) as [[out err] s1] eqn:Hc.
    exists b, out, err, s1. repeat split. exact Hc.
  - left. exists e. split; [reflexivity |]. now apply createPolicy_not_marshalled.
Qed.

Lemma Create_trace p s :
  trace_of (Create json_Marshal awsarn_Parse svc (p, s)) =
    trace_of (createPolicy json_Marshal svc (pi_Name p) (pi_Description p)
                (pi_PolicyDocument p) s).
Proof.
  rewrite Create_unfold. unfold trace_of.
  destruct (createPolicy _ _ _ _ _ s) as [[[[[[[pol|]]|] [e|]]|q] s1] t];
    cbn [fst snd cpo_Policy]; try reflexivity.
  destruct (awsarn_Parse _); reflexivity.
Qed.

Lemma Update_trace p s :
  trace_of (Update json_Marshal svc (p, s)) =
    if String.eqb (ARN_String (pi_arn p)) (ARN_String zero_ARN) then []
    else trace_of (updatePolicy json_Marshal svc (pi_arn p) (pi_PolicyDocument p) s).
Proof.
  rewrite Update_unfold. destruct (String.eqb _ _); [reflexivity |].
  apply returning_error_trace.
Qed.

Lemma Delete_trace p s :
  trace_of (Delete svc (p, s)) =
    if String.eqb (ARN_String (pi_arn p)) (ARN_String zero_ARN) then []
    else trace_of (deletePolicy svc (pi_arn p) s).
Proof.
  rewrite Delete_unfold. destruct (String.eqb _ _); [reflexivity |].
  apply returning_error_trace.
Qed.



(** X5: what the methods may call.  [Create] makes at most one call, a
    [CreatePolicy] for the receiver's name, description and marshalled
    document; [Update] makes at most one call, a [CreatePolicyVersion] on the
    stored ARN with [SetAsDefault] true (it never deletes a version);
    every call [Delete] makes carries the stored ARN as [PolicyArn]. *)
Theorem methods_call_footprint p s :
  (length (trace_of (Create json_Marshal awsarn_Parse svc (p, s))) <= 1 /\
   forall ev, In ev (trace_of (Create json_Marshal awsarn_Parse svc (p, s))) ->
     exists b, json_Marshal (pi_PolicyDocument p) = inl b /\
       ev_call ev = CallCreatePolicy
         (mkCreatePolicyInput (Some b) (Some (pi_Description p)) (Some (pi_Name p)))) /\
  (length (trace_of (Update json_Marshal svc (p, s))) <= 1 /\
   forall ev, In ev (trace_of (Update json_Marshal svc (p, s))) ->
     exists b, json_Marshal (pi_PolicyDocument p) = inl b /\
       ev_call ev = CallCreatePolicyVersion
         (mkCreatePolicyVersionInput (Some b) (Some (ARN_String (pi_arn p))) (Some true))) /\
  (forall ev, In ev (trace_of (Delete svc (p, s))) ->
     call_PolicyArn (ev_call ev) = Some (ARN_String (pi_arn p))).
Proof.
  rewrite Create_trace, Update_trace, Delete_trace. repeat split.
  - destruct (createPolicy_cases (pi_Name p) (pi_Description p) (pi_PolicyDocument p) s)
      as [(e & _ & ->) | (b & out & err & s1 & _ & _ & ->)]; cbn; lia.
  - destruct (createPolicy_cases (pi_Name p) (pi_Description p) (pi_PolicyDocument p) s)
      as [(e & _ & ->) | (b & out & err & s1 & Hm & _ & ->)]; intros ev [].
    + subst ev. exists b. split; [exact Hm | reflexivity].
    + contradiction.
  - destruct (String.eqb _ _); [cbn; lia |].
    destruct (json_Marshal (pi_PolicyDocument p)) as [b|e] eqn:Hm.
    + rewrite (updatePolicy_marshalled json_Marshal svc _ _ _ s Hm). cbn. lia.
    + rewrite (updatePolicy_not_marshalled json_Marshal svc _ _ _ s Hm). cbn. lia.
  - destruct (String.eqb _ _); [intros ev [] |].
    destruct (json_Marshal (pi_PolicyDocument p)) as [b|e] eqn:Hm.
    + rewrite (updatePolicy_marshalled json_Marshal svc _ _ _ s Hm).
      intros ev [<- | []]. exists b. split; reflexivity.
    + rewrite (updatePolicy_not_marshalled json_Marshal svc _ _ _ s Hm). intros ev [].
  - destruct (String.eqb _ _); [intros ev [] |].
    intros ev Hin.
    destruct (deletePolicy_calls_prefix svc (pi_arn p) s) as [rest Hpre].
    apply (complete_delete_calls_PolicyArn (pi_arn p) (versions_listed svc (pi_arn p) s)).
    rewrite Hpre. apply in_or_app. left. unfold calls_of. now apply in_map.
Qed.

(** X6: [Create] has no guard: it runs the same whatever ARN the receiver
    holds (same answer, same calls, same client state), so on an instance that
    was created already it calls [CreatePolicy] again, and on success the ARN
    held before is overwritten. *)
Theorem Create_ignores_stored_arn p s (a : ARN) :
  result_of (Create json_Marshal awsarn_Parse svc
               (mkPolicyInstance (pi_Name p) (pi_Description p) (pi_PolicyDocument p) a, s)) =
    result_of (Create json_Marshal awsarn_Parse svc (p, s)) /\
  trace_of (Create json_Marshal awsarn_Parse svc
              (mkPolicyInstance (pi_Name p) (pi_Description p) (pi_PolicyDocument p) a, s)) =
    trace_of (Create json_Marshal awsarn_Parse svc (p, s)) /\
  snd (state_of (Create json_Marshal awsarn_Parse svc
              (mkPolicyInstance (pi_Name p) (pi_Description p) (pi_PolicyDocument p) a, s))) =
    snd (state_of (Create json_Marshal awsarn_Parse svc (p, s))) /\
  (result_of (Create json_Marshal awsarn_Parse svc (p, s)) = Return None ->
   fst (state_of (Create json_Marshal awsarn_Parse svc
              (mkPolicyInstance (pi_Name p) (pi_Description p) (pi_PolicyDocument p) a, s))) =
     fst (state_of (Create json_Marshal awsarn_Parse svc (p, s)))).
Proof.
  rewrite !Create_unfold. cbn [pi_Name pi_Description pi_PolicyDocument].
  unfold result_of, trace_of, state_of.
  destruct (createPolicy _ _ _ _ _ s) as [[[[[[[pol|]]|] [e|]]|q] s1] t];
    cbn [fst snd cpo_Policy]; repeat split; try discriminate.
  all: destruct (awsarn_Parse _); cbn [fst snd]; try reflexivity; discriminate.
Qed.

(** X7: [Create] panics only with a nil dereference, namely when
    [CreatePolicy] answered no error but a nil output or an output without a
    [Policy]; the call was made and succeeded, and the receiver is as it was
    (its [arn] is not set although the policy may exist). *)
Theorem Create_panics_only_on_nil_output p s (q : panic_value) :
  result_of (Create json_Marshal awsarn_Parse svc (p, s)) = Panic q ->
  q = NilDereference /\
  fst (state_of (Create json_Marshal awsarn_Parse svc (p, s))) = p /\
  exists b out,
    json_Marshal (pi_PolicyDocument p) = inl b /\
    fst (CreatePolicy svc
           (mkCreatePolicyInput (Some b) (Some (pi_Description p)) (Some (pi_Name p))) s) =
      (out, None) /\
    match out with Some o => cpo_Policy o = None | None => True end /\
    trace_of (Create json_Marshal awsarn_Parse svc (p, s)) =
      [Ev (CallCreatePolicy
             (mkCreatePolicyInput (Some b) (Some (pi_Description p)) (Some (pi_Name p)))) None].
Proof.
  rewrite !Create_unfold. unfold result_of, trace_of, state_of.
  destruct (createPolicy_cases (pi_Name p) (pi_Description p) (pi_PolicyDocument p) s)
    as [(e & _ & ->) | (b & out & err & s1 & Hm & Hc & ->)]; [discriminate |].
  unfold passed_on. cbn [fst snd].
  destruct err as [e|]; [discriminate |].
  destruct out as [[[pol|]]|]; cbn [fst snd cpo_Policy].
  - destruct (awsarn_Parse _); discriminate.
  - intros H. injection H as <-. repeat split.
    exists b, (Some (mkCreatePolicyOutput None)). rewrite Hc. repeat split. exact Hm.
  - intros H. injection H as <-. repeat split.
    exists b, None. rewrite Hc. repeat split. exact Hm.
Qed.

(** X8: an instance made by [NewPolicyInstance] is not created: [IsCreated]
    answers false and [Update] and [Delete] return the not-yet-created error
    naming it, without a call; one made by [NewExistingPolicyInstance] holds
    the ARN it was given, and counts as created exactly when that ARN is not
    the zero value. *)
Theorem constructed_instances (name description : string) (policyDoc : PolicyDocument)
    (a : ARN) s :
  (IsCreated svc (NewPolicyInstance name description policyDoc, s) =
     (Return false, (NewPolicyInstance name description policyDoc, s), []) /\
   Update json_Marshal svc (NewPolicyInstance name description policyDoc, s) =
     (Return (Some (InstanceNotYetCreatedError
                      ("Policy '" ++ name ++ "' not yet created")%string)),
      (NewPolicyInstance name description policyDoc, s), []) /\
   Delete svc (NewPolicyInstance name description policyDoc, s) =
     (Return (Some (InstanceNotYetCreatedError
                      ("Policy '" ++ name ++ "' not yet created")%string)),
      (NewPolicyInstance name description policyDoc, s), [])) /\
  (PolicyInstance_ARN (NewExistingPolicyInstance name description policyDoc a, s) =
     (Return a, (NewExistingPolicyInstance name description policyDoc a, s), []) /\
   (result_of (IsCreated svc (NewExistingPolicyInstance name description policyDoc a, s)) =
      Return true <-> a <> zero_ARN)).
Proof.
  rewrite Update_unfold, Delete_unfold, !IsCreated_run.
  cbn [NewPolicyInstance NewExistingPolicyInstance pi_arn pi_Name].
  rewrite String.eqb_refl. repeat split.
  - unfold result_of. cbn [fst]. intros H Ha. apply ARN_String_eqb_zero in Ha.
    rewrite Ha in H. discriminate H.
  - intros Ha. rewrite (ARN_String_eqb_nonzero _ Ha). reflexivity.
Qed.

End MoreMethodFacts.




(** X2 on the healthy client: the call for [v3] carries the policy's ARN. *)
Lemma deletePolicy_call_budget_healthy :
  call_PolicyArn (delete_version_call readers_arn v3) = Some (ARN_String readers_arn).
Proof.
  apply (proj2 (proj2 (deletePolicy_call_budget healthy readers_arn 0))).
  vm_compute. right. right. left. reflexivity.
Defined.

(** X3 on a policy that vanishes before the final call. *)
Lemma deletePolicy_answers_gone_at_delete :
  calls_of (deletePolicy gone_at_delete readers_arn 0) =
    complete_delete_calls readers_arn (versions_listed gone_at_delete readers_arn 0) /\
  exists t err,
    trace_of (deletePolicy gone_at_delete readers_arn 0) =
      t ++ [Ev (delete_policy_call readers_arn) err] /\
    all_succeeded t /\
    match err with
    | None => True
    | Some e => awserr_Code e = Some ErrCodeNoSuchEntityException
    end.
Proof.
  apply (proj1 (deletePolicy_answers gone_at_delete readers_arn 0)
           (Some mkDeletePolicyOutput)).
  reflexivity.
Defined.

(** X4 on a listing with a nil entry: [v2] is deleted, then the panic. *)
Lemma deletePolicy_panics_torn :
  result_of (deletePolicy torn readers_arn 0) = Panic NilDereference /\
  calls_of (deletePolicy torn readers_arn 0) =
    [list_versions_call readers_arn; delete_version_call readers_arn v2] /\
  all_succeeded (trace_of (deletePolicy torn readers_arn 0)) /\
  ~ In (delete_policy_call readers_arn) (calls_of (deletePolicy torn readers_arn 0)).
Proof.
  destruct (deletePolicy_panics torn readers_arn 0 NilDereference eq_refl)
    as [[e He] | (_ & Hok & Hno & _)]; [discriminate He |].
  split; [reflexivity | split; [reflexivity | split; [exact Hok | exact Hno]]].
Defined.

(** X5 on an update of an existing instance. *)
Lemma methods_call_footprint_readers :
  exists b,
    text_Marshal (pi_PolicyDocument readers_existing) = inl b /\
    ev_call (Ev (CallCreatePolicyVersion
                   (mkCreatePolicyVersionInput (Some "{}") (Some (ARN_String readers_arn))
                      (Some true))) None) =
      CallCreatePolicyVersion
        (mkCreatePolicyVersionInput (Some b) (Some (ARN_String (pi_arn readers_existing)))
           (Some true)).
Proof.
  apply (proj2 (proj1 (proj2
           (methods_call_footprint text_Marshal readers_Parse healthy readers_existing 0)))).
  vm_compute. left. reflexivity.
Defined.

(** X6: creating again what exists already ends with the same receiver as
    creating it for the first time. *)
Lemma Create_ignores_stored_arn_readers :
  fst (state_of (Create text_Marshal readers_Parse healthy (readers_new, 0))) =
    fst (state_of (Create text_Marshal readers_Parse healthy (readers_existing, 0))).
Proof.
  apply (proj2 (proj2 (proj2
           (Create_ignores_stored_arn text_Marshal readers_Parse healthy
              readers_existing 0 zero_ARN)))).
  reflexivity.
Defined.

(** X7 on a client whose [CreatePolicy] answers nothing at all. *)
Lemma Create_panics_on_silent_create :
  fst (state_of (Create text_Marshal readers_Parse silent_create (readers_new, 0))) =
    readers_new.
Proof.
  apply (Create_panics_only_on_nil_output text_Marshal readers_Parse silent_create
           readers_new 0 NilDereference).
  reflexivity.
Defined.

(** ** Facts on role.go *)

Module RolesFacts.

Import Roles.

Section RoleHelperFacts.

Context {PolicyDocument St : Type}.
Variable json_Marshal : PolicyDocument -> string + error.
Variable FriendlyNamefromARN : ARN -> string.
Variable svc : IAMAPI St.

(** [deleteRole], path by path. *)
Lemma deleteRole_unfold (roleArn : ARN) (s : St) :
  deleteRole FriendlyNamefromARN svc roleArn s =
    match DeleteRole svc (mkDeleteRoleInput (Some (FriendlyNamefromARN roleArn))) s with
    | ((res, None), s1) =>
        (Return (res, None), s1,
         [Ev (CallDeleteRole (mkDeleteRoleInput (Some (FriendlyNamefromARN roleArn)))) None])
    | ((res, Some e), s1) =>
        (match awserr_Code e with
         | None => Panic (InterfaceConversion e)
         | Some code =>
             if String.eqb code ErrCodeNoSuchEntityException
             then Return (res, None) else Return (None, Some e)
         end, s1,
         [Ev (CallDeleteRole (mkDeleteRoleInput (Some (FriendlyNamefromARN roleArn)))) (Some e)])
    end.
Proof.
  unfold deleteRole, bind, invoke, ret, panic, awssdk_String.
  destruct (DeleteRole svc _ s) as [[res [e|]] s1]; cbn; [| reflexivity].
  destruct (awserr_Code e) as [code|]; cbn; [| reflexivity].
  destruct (String.eqb code ErrCodeNoSuchEntityException); reflexivity.
Qed.

(** [updateRole], path by path. *)
Lemma updateRole_unfold (roleArn : ARN) (roleDesc : string) (pd : PolicyDocument) (s : St) :
  updateRole json_Marshal FriendlyNamefromARN svc roleArn roleDesc pd s =
    match UpdateRole svc
            (mkUpdateRoleInput (Some (FriendlyNamefromARN roleArn)) (Some roleDesc)) s with
    | ((_, Some e), s1) =>
        (Return (None, Some e), s1,
         [Ev (CallUpdateRole
                (mkUpdateRoleInput (Some (FriendlyNamefromARN roleArn)) (Some roleDesc)))
             (Some e)])
    | ((result, None), s1) =>
        match json_Marshal pd with
        | inr e =>
            (Return (None, Some e), s1,
             [Ev (CallUpdateRole
                    (mkUpdateRoleInput (Some (FriendlyNamefromARN roleArn)) (Some roleDesc)))
                 None])
        | inl b =>
            match UpdateAssumeRolePolicy svc
                    (mkUpdateAssumeRolePolicyInput
                       (Some (FriendlyNamefromARN roleArn)) (Some b)) s1 with
            | ((_, err), s2) =>
                (Return (match err with
                         | Some e => (None, Some e)
                         | None => (result, None)
                         end), s2,
                 [Ev (CallUpdateRole
                        (mkUpdateRoleInput (Some (FriendlyNamefromARN roleArn)) (Some roleDesc)))
                     None;
                  Ev (CallUpdateAssumeRolePolicy
                        (mkUpdateAssumeRolePolicyInput
                           (Some (FriendlyNamefromARN roleArn)) (Some b)))
                     err])
            end
        end
    end.
Proof.
  unfold updateRole, bind, invoke, ret, awssdk_String.
  destruct (UpdateRole svc _ s) as [[result [e|]] s1]; cbn; [reflexivity |].
  destruct (json_Marshal pd) as [b|e]; cbn; [| reflexivity].
  destruct (UpdateAssumeRolePolicy svc _ s1) as [[o [e|]] s2]; reflexivity.
Qed.

Lemma createRole_unfold (rn roleDesc : string) (sessionDuration : Z) (pd : PolicyDocument)
    (s : St) :
  createRole json_Marshal svc rn roleDesc sessionDuration pd s =
    match json_Marshal pd with
    | inr e => (Return (None, Some e), s, [])
    | inl b =>
        match CreateRole svc
                (mkCreateRoleInput (Some b) (Some roleDesc) (Some sessionDuration) (Some rn)) s with
        | (r, s1) =>
            (Return (passed_on r), s1,
             [Ev (CallCreateRole
                    (mkCreateRoleInput (Some b) (Some roleDesc) (Some sessionDuration) (Some rn)))
                 (snd r)])
        end
    end.
Proof.
  unfold createRole, bind, invoke, ret, awssdk_String, passed_on.
  destruct (json_Marshal pd) as [b|e]; [| reflexivity].
  destruct (CreateRole svc _ s) as [[out [e|]] s1]; reflexivity.
Qed.

Lemma getRoleByName_unfold (roleName : string) (s : St) :
  getRoleByName roleName svc s =
    match GetRole svc (mkGetRoleInput (Some roleName)) s with
    | (r, s1) =>
        (Return (passed_on r), s1, [Ev (CallGetRole (mkGetRoleInput (Some roleName))) (snd r)])
    end.
Proof.
  unfold getRoleByName, bind, invoke, ret, awssdk_String, passed_on.
  destruct (GetRole svc _ s) as [[out [e|]] s1]; reflexivity.
Qed.

(** [getRole] is [getRoleByName] on the friendly name of the ARN. *)
Lemma getRole_by_name (roleArn : ARN) (s : St) :
  getRole FriendlyNamefromARN svc roleArn s =
    getRoleByName (FriendlyNamefromARN roleArn) svc s.
Proof. reflexivity. Qed.

Lemma passed_on_failed {O : Type} (r : response O) (c c' : call) (e : error) :
  In (Ev c (Some e)) [Ev c' (snd r)] -> passed_on r = (None, Some e).
Proof.
  intros [Heq | []]. injection Heq as _ Herr. unfold passed_on. now rewrite Herr.
Qed.

(** X9: [deleteRole] makes exactly one call, [DeleteRole] for the friendly
    name of the ARN.  It returns a nil error exactly when that call answered
    no error or an error whose code is [NoSuchEntity] (deleting a role that is
    gone succeeds); it panics on the type assertion exactly when the call
    answered an error that does not implement [awserr.Error]; any other error
    is returned as it is with a nil output. *)
Theorem deleteRole_answers (roleArn : ARN) (s : St) :
  calls_of (deleteRole FriendlyNamefromARN svc roleArn s) =
    [CallDeleteRole (mkDeleteRoleInput (Some (FriendlyNamefromARN roleArn)))] /\
  ((exists out, result_of (deleteRole FriendlyNamefromARN svc roleArn s) = Return (out, None)) <->
   (snd (fst (DeleteRole svc
                (mkDeleteRoleInput (Some (FriendlyNamefromARN roleArn))) s)) = None \/
    exists e,
      snd (fst (DeleteRole svc
                  (mkDeleteRoleInput (Some (FriendlyNamefromARN roleArn))) s)) = Some e /\
      awserr_Code e = Some ErrCodeNoSuchEntityException)) /\
  (forall e,
     result_of (deleteRole FriendlyNamefromARN svc roleArn s) = Panic (InterfaceConversion e) <->
     (snd (fst (DeleteRole svc
                  (mkDeleteRoleInput (Some (FriendlyNamefromARN roleArn))) s)) = Some e /\
      awserr_Code e = None)) /\
  (forall out e,
     result_of (deleteRole FriendlyNamefromARN svc roleArn s) = Return (out, Some e) ->
     out = None /\
     snd (fst (DeleteRole svc
                 (mkDeleteRoleInput (Some (FriendlyNamefromARN roleArn))) s)) = Some e).
Proof.
  rewrite deleteRole_unfold. unfold calls_of, trace_of, result_of.
  destruct (DeleteRole svc _ s) as [[res [e|]] s1]; cbn [fst snd map ev_call];
    [destruct (awserr_Code e) as [code|] eqn:Hcode;
     [destruct (String.eqb code ErrCodeNoSuchEntityException) eqn:Hnse;
      [apply String.eqb_eq in Hnse; subst code | apply String.eqb_neq in Hnse] |] |];
    repeat split; intros;
    repeat match goal with
           | H : exists _, _ |- _ => destruct H
           | H : _ /\ _ |- _ => destruct H
           | H : _ \/ _ |- _ => destruct H
           end;
    try discriminate; try congruence;
    try solve [left; reflexivity
              | right; eexists; split; [reflexivity | eassumption]
              | eexists; reflexivity
              | match goal with
                | H : Some _ = Some _ |- _ => injection H as H; subst; reflexivity
                end].
Qed.

(** X10: [updateRole] updates the description first and marshals the
    document only afterwards.  Its first call is always [UpdateRole], for the
    friendly name of the ARN with the given description; a second call is
    made only if that succeeded and the document marshalled, and is
    [UpdateAssumeRolePolicy] for the same name with the JSON text.  So when
    marshalling fails the description has been changed already; and on
    success the output returned is that of [UpdateRole]. *)
Theorem updateRole_call_order (roleArn : ARN) (roleDesc : string) (pd : PolicyDocument)
    (s : St) :
  exists err1 rest,
    trace_of (updateRole json_Marshal FriendlyNamefromARN svc roleArn roleDesc pd s) =
      Ev (CallUpdateRole
            (mkUpdateRoleInput (Some (FriendlyNamefromARN roleArn)) (Some roleDesc))) err1
      :: rest /\
    err1 = snd (fst (UpdateRole svc
                       (mkUpdateRoleInput (Some (FriendlyNamefromARN roleArn))
                          (Some roleDesc)) s)) /\
    (rest = [] \/
     exists b err2,
       json_Marshal pd = inl b /\ err1 = None /\
       rest = [Ev (CallUpdateAssumeRolePolicy
                     (mkUpdateAssumeRolePolicyInput
                        (Some (FriendlyNamefromARN roleArn)) (Some b))) err2]) /\
    (forall e, json_Marshal pd = inr e -> err1 = None ->
       rest = [] /\
       result_of (updateRole json_Marshal FriendlyNamefromARN svc roleArn roleDesc pd s) =
         Return (None, Some e)) /\
    (forall out,
       result_of (updateRole json_Marshal FriendlyNamefromARN svc roleArn roleDesc pd s) =
         Return (out, None) ->
       out = fst (fst (UpdateRole svc
                         (mkUpdateRoleInput (Some (FriendlyNamefromARN roleArn))
                            (Some roleDesc)) s)) /\
       err1 = None /\
       exists b,
         json_Marshal pd = inl b /\
         rest = [Ev (CallUpdateAssumeRolePolicy
                       (mkUpdateAssumeRolePolicyInput
                          (Some (FriendlyNamefromARN roleArn)) (Some b))) None]).
Proof.
  rewrite updateRole_unfold. unfold trace_of, result_of.
  destruct (UpdateRole svc _ s) as [[result [e1|]] s1]; cbn [fst snd];
    [| destruct (json_Marshal pd) as [b|e] eqn:Hm;
       [destruct (UpdateAssumeRolePolicy svc _ s1) as [[o [e2|]] s2]; cbn [fst snd] |]];
    eexists; eexists; (split; [reflexivity |]); (split; [reflexivity |]);
    repeat split; intros;
    try discriminate; try congruence;
    try solve [left; reflexivity
              | right; eexists; eexists; repeat split; reflexivity
              | eexists; split; reflexivity
              | match goal with
                | H : inr _ = inr _ |- _ => injection H as H; subst; reflexivity
                end].
Qed.

(** X11: the role helpers that only pass errors on.  When the SDK call made
    by [createRole], [getRole] or [getRoleByName], or either call made by
    [updateRole], answers an error, the helper returns a nil output and that
    very error; and [getRole] is [getRoleByName] on the friendly name of the
    ARN. *)
Theorem role_errors_returned_unchanged (s : St) (c : call) (e : error) :
  (forall rn roleDesc sessionDuration pd,
     In (Ev c (Some e)) (trace_of (createRole json_Marshal svc rn roleDesc sessionDuration pd s)) ->
     result_of (createRole json_Marshal svc rn roleDesc sessionDuration pd s) =
       Return (None, Some e)) /\
  (forall roleArn roleDesc pd,
     In (Ev c (Some e))
        (trace_of (updateRole json_Marshal FriendlyNamefromARN svc roleArn roleDesc pd s)) ->
     result_of (updateRole json_Marshal FriendlyNamefromARN svc roleArn roleDesc pd s) =
       Return (None, Some e)) /\
  (forall roleName,
     In (Ev c (Some e)) (trace_of (getRoleByName roleName svc s)) ->
     result_of (getRoleByName roleName svc s) = Return (None, Some e)) /\
  (forall roleArn,
     getRole FriendlyNamefromARN svc roleArn s =
       getRoleByName (FriendlyNamefromARN roleArn) svc s).
Proof.
  repeat split.
  - intros rn roleDesc sessionDuration pd. rewrite createRole_unfold.
    destruct (json_Marshal pd) as [b|e0]; [| intros []].
    destruct (CreateRole svc _ s) as [r s1]. unfold trace_of, result_of. cbn [fst snd].
    intros Hin. now rewrite (passed_on_failed _ _ _ _ Hin).
  - intros roleArn roleDesc pd. rewrite updateRole_unfold. unfold trace_of, result_of.
    destruct (UpdateRole svc _ s) as [[result [e1|]] s1]; cbn [fst snd].
    + intros [H | []]. congruence.
    + destruct (json_Marshal pd) as [b|e0].
      * destruct (UpdateAssumeRolePolicy svc _ s1) as [[o [e2|]] s2]; cbn [fst snd].
        -- intros [H | [H | []]]; [discriminate H | congruence].
        -- intros [H | [H | []]]; discriminate H.
      * intros [H | []]. discriminate H.
  - intros roleName. rewrite getRoleByName_unfold.
    destruct (GetRole svc _ s) as [r s1]. unfold trace_of, result_of. cbn [fst snd].
    intros Hin. now rewrite (passed_on_failed _ _ _ _ Hin).
Qed.

End RoleHelperFacts.

Section RoleMethodFacts.

Context {PolicyDocument St : Type}.
Variable json_Marshal : PolicyDocument -> string + error.
Variable awsarn_Parse : string -> ARN + error.
Variable FriendlyNamefromARN : ARN -> string.
Variable ARNify : string -> list ARN * option error.
Variable svc : IAMAPI St.
Implicit Types (r : RoleInstance PolicyDocument) (s : St).

Lemma Role_IsCreated_run r s :
  IsCreated svc (r, s) =
    (Return (negb (String.eqb (ARN_String (ri_arn r)) (ARN_String zero_ARN))), (r, s), []).
Proof. reflexivity. Qed.

(** [Read], path by path. *)
Lemma Role_Read_unfold r s :
  Read ARNify svc (r, s) =
    match GetRole svc (mkGetRoleInput (Some (ri_Name r))) s with
    | ((_, Some e), s1) =>
        (Return (Some e), (r, s1),
         [Ev (CallGetRole (mkGetRoleInput (Some (ri_Name r)))) (Some e)])
    | ((None, None), s1) =>
        (Panic NilDereference, (r, s1),
         [Ev (CallGetRole (mkGetRoleInput (Some (ri_Name r)))) None])
    | ((Some out, None), s1) =>
        (match gro_Role out with
         | None => (Panic NilDereference, (r, s1))
         | Some role =>
             match ARNify (awssdk_StringValue (role_Arn role)) with
             | (_, Some e) => (Return (Some e), (r, s1))
             | ([], None) => (Panic IndexOutOfRange, (r, s1))
             | (a :: _, None) =>
                 match role_Description role with
                 | None => (Panic NilDereference, (set_arn a r, s1))
                 | Some d =>
                     match role_MaxSessionDuration role with
                     | None => (Panic NilDereference, (set_Description d (set_arn a r), s1))
                     | Some m =>
                         match role_RoleName role with
                         | None =>
                             (Panic NilDereference,
                              (set_MaxSessionDuration m (set_Description d (set_arn a r)), s1))
                         | Some n =>
                             (Return None,
                              (set_Name n
                                 (set_MaxSessionDuration m (set_Description d (set_arn a r))),
                               s1))
                         end
                     end
                 end
             end
         end,
         [Ev (CallGetRole (mkGetRoleInput (Some (ri_Name r)))) None])
    end.
Proof.
  unfold Read, bind, receiver, lift. cbn [fst snd]. rewrite getRoleByName_unfold.
  destruct (GetRole svc _ s) as [[[[[role|]]|] [e|]] s1];
    unfold passed_on; cbn; try reflexivity.
  destruct (ARNify _) as [[|a rest] [e|]]; cbn; try reflexivity.
  destruct role as [ra [d|] [m|] [n|]]; cbn; reflexivity.
Qed.

(** [Create], path by path. *)
Lemma Role_Create_unfold r s :
  Create json_Marshal awsarn_Parse svc (r, s) =
    match createRole json_Marshal svc (ri_Name r) (ri_Description r)
            (ri_MaxSessionDuration r) (ri_PolicyDocument r) s with
    | (Panic q, s1, t) => (Panic q, (r, s1), t)
    | (Return (_, Some e), s1, t) => (Return (Some e), (r, s1), t)
    | (Return (None, None), s1, t) => (Panic NilDereference, (r, s1), t)
    | (Return (Some out, None), s1, t) =>
        match cro_Role out with
        | None => (Panic NilDereference, (r, s1), t)
        | Some role =>
            match awsarn_Parse (awssdk_StringValue (role_Arn role)) with
            | inr e => (Return (Some e), (r, s1), t)
            | inl newarn => (Return None, (set_arn newarn r, s1), t)
            end
        end
    end.
Proof.
  unfold Create, bind, receiver, lift, deref, ret, panic, assign. cbn [fst snd].
  destruct (createRole _ _ _ _ _ _ s) as [[[[[[[role|]]|] [e|]]|q] s1] t]; cbn;
    rewrite ?app_nil_r; try reflexivity.
  destruct (awsarn_Parse _) as [newarn|e]; cbn; rewrite ?app_nil_r; reflexivity.
Qed.

Lemma Role_Update_unfold r s :
  Update json_Marshal FriendlyNamefromARN svc (r, s) =
    if String.eqb (ARN_String (ri_arn r)) (ARN_String zero_ARN)
    then (Return (Some (InstanceNotYetCreatedError
                          ("Role '" ++ ri_Name r ++ "' not yet created")%string)),
          (r, s), [])
    else returning_error
           (updateRole json_Marshal FriendlyNamefromARN svc (ri_arn r) (ri_Description r)
              (ri_PolicyDocument r)) (r, s).
Proof.
  unfold Update, bind. rewrite Role_IsCreated_run. unfold receiver.
  destruct (String.eqb _ _); cbn [negb].
  - reflexivity.
  - unfold lift, returning_error, ret. cbn [fst snd].
    destruct (updateRole _ _ _ _ _ _ s) as [[[[out [e|]]|q] s1] t]; cbn;
      rewrite ?app_nil_r; reflexivity.
Qed.

Lemma Role_Delete_unfold r s :
  Delete FriendlyNamefromARN svc (r, s) =
    if String.eqb (ARN_String (ri_arn r)) (ARN_String zero_ARN)
    then (Return (Some (InstanceNotYetCreatedError
                          ("Role '" ++ ri_Name r ++ "' not yet created")%string)),
          (r, s), [])
    else returning_error (deleteRole FriendlyNamefromARN svc (ri_arn r)) (r, s).
Proof.
  unfold Delete, bind. rewrite Role_IsCreated_run. unfold receiver.
  destruct (String.eqb _ _); cbn [negb].
  - reflexivity.
  - unfold lift, returning_error, ret. cbn [fst snd].
    destruct (deleteRole _ _ _ s) as [[[[out [e|]]|q] s1] t]; cbn;
      rewrite ?app_nil_r; reflexivity.
Qed.

Lemma Role_returning_error_receiver {O : Type} (m : M St (response O)) r s :
  fst (state_of (returning_error m (r, s))) = r.
Proof.
  unfold returning_error, state_of. cbn [fst snd].
  destruct (m s) as [[[[out err]|q] s1] t]; reflexivity.
Qed.

Ltac read_paths r s :=
  rewrite !(Role_Read_unfold r s); unfold calls_of, result_of, state_of, trace_of;
  let role := fresh "role" in let e := fresh "e" in let s1 := fresh "s" in
  let Hg := fresh "Hg" in
  destruct (GetRole svc (mkGetRoleInput (Some (ri_Name r))) s)
    as [[[[[role|]]|] [e|]] s1] eqn:Hg;
  cbn [fst snd map ev_call gro_Role];
  try (let a := fresh "a" in let rest := fresh "rest" in let e' := fresh "e" in
       let Ha := fresh "Ha" in
       destruct (ARNify (awssdk_StringValue (role_Arn role))) as [[|a rest] [e'|]] eqn:Ha;
       cbn [fst snd];
       try (let d := fresh "d" in let m := fresh "m" in let n := fresh "n" in
            let Hd := fresh "Hd" in let Hm := fresh "Hm" in let Hn := fresh "Hn" in
            destruct (role_Description role) as [d|] eqn:Hd;
            [destruct (role_MaxSessionDuration role) as [m|] eqn:Hm;
             [destruct (role_RoleName role) as [n|] eqn:Hn |] |];
            cbn [fst snd])).

(** X12: [Read] makes exactly one call, [GetRole] for the receiver's name
    (it needs no stored ARN), and never changes the [PolicyDocument].  If it
    returns an error the receiver is as it was; if it returns nil, the
    receiver's [arn] is the first ARN [ARNify] made of the role's ARN and its
    [Description], [MaxSessionDuration] and [Name] are those the service
    answered (what the instance held before is overwritten). *)
Theorem Role_Read_adopts_the_role r s :
  calls_of (Read ARNify svc (r, s)) = [CallGetRole (mkGetRoleInput (Some (ri_Name r)))] /\
  ri_PolicyDocument (fst (state_of (Read ARNify svc (r, s)))) = ri_PolicyDocument r /\
  (forall e, result_of (Read ARNify svc (r, s)) = Return (Some e) ->
             fst (state_of (Read ARNify svc (r, s))) = r) /\
  (result_of (Read ARNify svc (r, s)) = Return None ->
   exists out role a rest d m n,
     fst (GetRole svc (mkGetRoleInput (Some (ri_Name r))) s) = (Some out, None) /\
     gro_Role out = Some role /\
     ARNify (awssdk_StringValue (role_Arn role)) = (a :: rest, None) /\
     role_Description role = Some d /\
     role_MaxSessionDuration role = Some m /\
     role_RoleName role = Some n /\
     fst (state_of (Read ARNify svc (r, s))) =
       mkRoleInstance n d (ri_PolicyDocument r) m a).
Proof.
  read_paths r s; repeat split; intros; try discriminate; try reflexivity.
  exists (mkGetRoleOutput (Some role)), role, a, rest, d, m, n. repeat split; assumption.
Qed.

(** X13: [Read] is not atomic.  It panics only with a nil dereference or an
    index out of range; a panic leaves [Name] and [PolicyDocument] as they
    were, but once [ARNify] has answered a non-empty list the [arn] has been
    replaced by its first element: a role that the service answers without
    [Description], [MaxSessionDuration] or [RoleName] makes [Read] panic with
    the new ARN already stored.  After an index out of range ([ARNify]
    answered an empty list and no error) the receiver is as it was. *)
Theorem Role_Read_is_not_atomic r s (q : panic_value) :
  result_of (Read ARNify svc (r, s)) = Panic q ->
  (q = NilDereference \/ q = IndexOutOfRange) /\
  ri_Name (fst (state_of (Read ARNify svc (r, s)))) = ri_Name r /\
  ri_PolicyDocument (fst (state_of (Read ARNify svc (r, s)))) = ri_PolicyDocument r /\
  (forall out role a rest,
     fst (GetRole svc (mkGetRoleInput (Some (ri_Name r))) s) = (Some out, None) ->
     gro_Role out = Some role ->
     ARNify (awssdk_StringValue (role_Arn role)) = (a :: rest, None) ->
     ri_arn (fst (state_of (Read ARNify svc (r, s)))) = a /\
     (role_Description role = None \/ role_MaxSessionDuration role = None \/
      role_RoleName role = None)) /\
  (q = IndexOutOfRange -> fst (state_of (Read ARNify svc (r, s))) = r).
Proof.
  read_paths r s; intros Hq; try discriminate Hq; injection Hq as <-;
    repeat split; intros;
    repeat match goal with
           | H : (Some _, None) = (Some _, None) |- _ => injection H as H; subst
           | H : gro_Role {| gro_Role := _ |} = Some _ |- _ => cbn in H; injection H as H; subst
           | H : Some _ = Some _ |- _ => injection H as H; subst
           end;
    try discriminate;
    cbn [ri_arn ri_Name ri_PolicyDocument set_arn set_Description set_MaxSessionDuration];
    try congruence;
    try solve [left; reflexivity | right; reflexivity
              | right; left; assumption | right; right; assumption
              | left; assumption ].
Qed.

(** X14: the guard of [RoleInstance].  [IsCreated] answers true exactly when
    the stored ARN is not the zero value; on an instance whose ARN is the zero
    value (such as one made by [NewRoleInstance]) [Update] and [Delete] return
    the not-yet-created error naming the role and make no call; otherwise
    [Update] is [updateRole] on the stored ARN, description and document and
    [Delete] is [deleteRole] on the stored ARN. *)
Theorem Role_not_yet_created_guard r s :
  (result_of (IsCreated svc (r, s)) = Return true <-> ri_arn r <> zero_ARN) /\
  (forall name description sessionDuration (poldoc : PolicyDocument),
     ri_arn (NewRoleInstance name description sessionDuration poldoc) = zero_ARN) /\
  (ri_arn r = zero_ARN ->
   Update json_Marshal FriendlyNamefromARN svc (r, s) =
     (Return (Some (InstanceNotYetCreatedError
                      ("Role '" ++ ri_Name r ++ "' not yet created")%string)),
      (r, s), []) /\
   Delete FriendlyNamefromARN svc (r, s) =
     (Return (Some (InstanceNotYetCreatedError
                      ("Role '" ++ ri_Name r ++ "' not yet created")%string)),
      (r, s), [])) /\
  (ri_arn r <> zero_ARN ->
   Update json_Marshal FriendlyNamefromARN svc (r, s) =
     returning_error
       (updateRole json_Marshal FriendlyNamefromARN svc (ri_arn r) (ri_Description r)
          (ri_PolicyDocument r)) (r, s) /\
   Delete FriendlyNamefromARN svc (r, s) =
     returning_error (deleteRole FriendlyNamefromARN svc (ri_arn r)) (r, s)).
Proof.
  rewrite Role_Update_unfold, Role_Delete_unfold, Role_IsCreated_run.
  unfold result_of. cbn [fst].
  destruct (String.eqb (ARN_String (ri_arn r)) (ARN_String zero_ARN)) eqn:E.
  - pose proof (proj1 (ARN_String_eqb_zero _) E) as Hz.
    repeat split; intros; try discriminate; try contradiction; reflexivity.
  - assert (Hnz : ri_arn r <> zero_ARN).
    { intros Hz. apply ARN_String_eqb_zero in Hz. congruence. }
    repeat split; intros; try contradiction; try assumption; reflexivity.
Qed.

(** X15: [Delete] on a role never changes the receiver, whatever happens: a
    deleted instance keeps its ARN and still counts as created.  On an
    instance with a non-zero ARN it makes exactly one call, [DeleteRole] for
    the friendly name of the stored ARN, and returns nil when that call
    answers no error or an error whose code is [NoSuchEntity]. *)
Theorem Role_Delete_keeps_the_arn r s :
  fst (state_of (Delete FriendlyNamefromARN svc (r, s))) = r /\
  (ri_arn r <> zero_ARN ->
   calls_of (Delete FriendlyNamefromARN svc (r, s)) =
     [CallDeleteRole (mkDeleteRoleInput (Some (FriendlyNamefromARN (ri_arn r))))] /\
   (snd (fst (DeleteRole svc
                (mkDeleteRoleInput (Some (FriendlyNamefromARN (ri_arn r)))) s)) = None ->
    result_of (Delete FriendlyNamefromARN svc (r, s)) = Return None) /\
   (forall e,
      snd (fst (DeleteRole svc
                  (mkDeleteRoleInput (Some (FriendlyNamefromARN (ri_arn r)))) s)) = Some e ->
      awserr_Code e = Some ErrCodeNoSuchEntityException ->
      result_of (Delete FriendlyNamefromARN svc (r, s)) = Return None) /\
   result_of (IsCreated svc (state_of (Delete FriendlyNamefromARN svc (r, s)))) =
     Return true).
Proof.
  rewrite Role_Delete_unfold. split.
  - destruct (String.eqb _ _); [reflexivity | apply Role_returning_error_receiver].
  - intros Hnz. rewrite (ARN_String_eqb_nonzero _ Hnz).
    unfold returning_error. cbn [fst snd]. rewrite deleteRole_unfold.
    unfold calls_of, trace_of, result_of, state_of.
    destruct (DeleteRole svc _ s) as [[res [e|]] s1]; cbn [fst snd].
    + destruct (awserr_Code e) as [code|] eqn:Hcode.
      * destruct (String.eqb code ErrCodeNoSuchEntityException) eqn:Hnse;
          cbn [fst snd map ev_call]; rewrite Role_IsCreated_run;
          cbn [fst]; rewrite (ARN_String_eqb_nonzero _ Hnz);
          repeat split; intros; try discriminate.
        injection H as <-. rewrite Hcode in H0. injection H0 as ->.
        rewrite String.eqb_refl in Hnse. discriminate Hnse.
      * cbn [fst snd map ev_call]. rewrite Role_IsCreated_run.
        cbn [fst]. rewrite (ARN_String_eqb_nonzero _ Hnz).
        repeat split; intros; try discriminate. injection H as <-. congruence.
    + cbn [fst snd map ev_call]. rewrite Role_IsCreated_run.
      cbn [fst]. rewrite (ARN_String_eqb_nonzero _ Hnz).
      repeat split; intros; discriminate.
Qed.

(** X16: [Create] on a role sends one [CreateRole] request at most, with the
    marshalled document, the description, the session duration and the name
    of the receiver.  When it returns an error the receiver is as it was;
    when it returns nil the [arn] is what [awsarn.Parse] made of the ARN of
    the role in the output, and nothing else of the receiver has changed. *)
Theorem Role_Create_sets_arn_on_success_only r s :
  (forall ev, In ev (trace_of (Create json_Marshal awsarn_Parse svc (r, s))) ->
     exists b, json_Marshal (ri_PolicyDocument r) = inl b /\
       trace_of (Create json_Marshal awsarn_Parse svc (r, s)) = [ev] /\
       ev_call ev = CallCreateRole
         (mkCreateRoleInput (Some b) (Some (ri_Description r))
            (Some (ri_MaxSessionDuration r)) (Some (ri_Name r)))) /\
  (forall e, result_of (Create json_Marshal awsarn_Parse svc (r, s)) = Return (Some e) ->
     fst (state_of (Create json_Marshal awsarn_Parse svc (r, s))) = r) /\
  (result_of (Create json_Marshal awsarn_Parse svc (r, s)) = Return None ->
   exists out role newarn,
     result_of (createRole json_Marshal svc (ri_Name r) (ri_Description r)
                  (ri_MaxSessionDuration r) (ri_PolicyDocument r) s) =
       Return (Some out, None) /\
     cro_Role out = Some role /\
     awsarn_Parse (awssdk_StringValue (role_Arn role)) = inl newarn /\
     fst (state_of (Create json_Marshal awsarn_Parse svc (r, s))) =
       mkRoleInstance (ri_Name r) (ri_Description r) (ri_PolicyDocument r)
         (ri_MaxSessionDuration r) newarn).
Proof.
  rewrite !Role_Create_unfold, !createRole_unfold.
  unfold result_of, state_of, trace_of.
  destruct (json_Marshal (ri_PolicyDocument r)) as [b|e0] eqn:Hm.
  - destruct (CreateRole svc _ s) as [[out [e1|]] s1]; unfold passed_on; cbn [fst snd].
    + repeat split; intros; try discriminate; try reflexivity.
      destruct H as [<- | []]. exists b. repeat split.
    + destruct out as [[[role|]]|]; cbn [fst snd cro_Role].
      * destruct (awsarn_Parse _) as [newarn|e2] eqn:Hp; cbn [fst snd];
          repeat split; intros; try discriminate; try reflexivity;
          try (destruct H as [<- | []]; exists b; repeat split).
        exists (mkCreateRoleOutput (Some role)), role, newarn. repeat split. exact Hp.
      * repeat split; intros; try discriminate; try reflexivity.
        destruct H as [<- | []]. exists b. repeat split.
      * repeat split; intros; try discriminate; try reflexivity.
        destruct H as [<- | []]. exists b. repeat split.
  - cbn [fst snd]. repeat split; intros; try discriminate; try reflexivity.
    destruct H.
Qed.

End RoleMethodFacts.

Lemma ops_existing_is_created : ri_arn ops_existing <> zero_ARN.
Proof. discriminate. Qed.

(** X9 on a role that is gone. *)
Lemma deleteRole_answers_role_gone :
  exists out, result_of (deleteRole resource_name role_gone ops_arn 0) = Return (out, None).
Proof.
  apply (proj2 (proj1 (proj2 (deleteRole_answers resource_name role_gone ops_arn 0)))).
  right. exists no_such_entity. split; reflexivity.
Defined.

(** X10 on a document that does not marshal: the description is updated,
    then the marshalling error comes back. *)
Lemma updateRole_call_order_unmarshalled :
  calls_of (updateRole failing_Marshal resource_name healthy ops_arn "operators" "{}" 0) =
    [CallUpdateRole (mkUpdateRoleInput (Some "ops") (Some "operators"))] /\
  result_of (updateRole failing_Marshal resource_name healthy ops_arn "operators" "{}" 0) =
    Return (None, Some (OtherError "json: unsupported type")).
Proof.
  destruct (updateRole_call_order failing_Marshal resource_name healthy ops_arn
              "operators" "{}" 0) as (err1 & rest & Ht & He & _ & Hfail & _).
  destruct (Hfail (OtherError "json: unsupported type") eq_refl) as [Hrest Hres].
  - rewrite He. reflexivity.
  - split; [| exact Hres]. unfold calls_of. rewrite Ht, Hrest, He. reflexivity.
Defined.

(** X11 on a trust policy the service rejects. *)
Lemma role_errors_returned_unchanged_trust_rejected :
  result_of (updateRole text_Marshal resource_name trust_rejected ops_arn "operators" "{}" 0) =
    Return (None, Some (AwsError "MalformedPolicyDocument" "Invalid principal in policy.")).
Proof.
  apply (proj1 (proj2
           (role_errors_returned_unchanged text_Marshal resource_name trust_rejected 0
              (CallUpdateAssumeRolePolicy
                 (mkUpdateAssumeRolePolicyInput (Some "ops") (Some "{}")))
              (AwsError "MalformedPolicyDocument" "Invalid principal in policy.")))).
  vm_compute. right. left. reflexivity.
Defined.

(** X12 on an instance whose description and duration are out of date. *)
Lemma Role_Read_adopts_the_role_ops :
  fst (state_of (Read ops_ARNify healthy (ops_stale, 0))) =
    mkRoleInstance "ops" "operators" "{}" 3600%Z ops_arn.
Proof.
  destruct (proj2 (proj2 (proj2 (Role_Read_adopts_the_role ops_ARNify healthy ops_stale 0)))
              eq_refl)
    as (out & role & a & rest & d & m & n & Hg & Hr & Ha & Hd & Hm & Hn & Hs).
  reflexivity.
Defined.

(** X13 on a role without a description: the panic comes with the ARN
    already adopted. *)
Lemma Role_Read_is_not_atomic_undescribed :
  result_of (Read ops_ARNify undescribed (ops_stale, 0)) = Panic NilDereference /\
  ri_arn (fst (state_of (Read ops_ARNify undescribed (ops_stale, 0)))) = ops_arn /\
  ri_Description (fst (state_of (Read ops_ARNify undescribed (ops_stale, 0)))) =
    "old description".
Proof.
  destruct (Role_Read_is_not_atomic ops_ARNify undescribed ops_stale 0 NilDereference eq_refl)
    as (_ & _ & _ & Harn & _).
  destruct (Harn (mkGetRoleOutput (Some ops_role_undescribed)) ops_role_undescribed
              ops_arn [] eq_refl eq_refl eq_refl) as [Ha _].
  split; [reflexivity | split; [exact Ha | reflexivity]].
Defined.

(** X14 on an instance that was never created. *)
Lemma Role_not_yet_created_guard_ops :
  Update text_Marshal resource_name healthy (ops_new, 0) =
    (Return (Some (InstanceNotYetCreatedError "Role 'ops' not yet created")),
     (ops_new, 0), []) /\
  Delete resource_name healthy (ops_new, 0) =
    (Return (Some (InstanceNotYetCreatedError "Role 'ops' not yet created")),
     (ops_new, 0), []).
Proof.
  apply (proj1 (proj2 (proj2
           (Role_not_yet_created_guard text_Marshal resource_name healthy ops_new 0)))).
  reflexivity.
Defined.

(** X15 on a role that is gone: [Delete] returns nil and the instance still
    counts as created. *)
Lemma Role_Delete_keeps_the_arn_role_gone :
  result_of (Delete resource_name role_gone (ops_existing, 0)) = Return None /\
  result_of (IsCreated role_gone (state_of (Delete resource_name role_gone (ops_existing, 0)))) =
    Return true.
Proof.
  destruct (proj2 (Role_Delete_keeps_the_arn resource_name role_gone ops_existing 0)
              ops_existing_is_created) as (_ & _ & Hnse & Hcreated).
  split; [| exact Hcreated].
  apply (Hnse no_such_entity); reflexivity.
Defined.

(** X16 on a creation that succeeds. *)
Lemma Role_Create_sets_arn_ops :
  exists out role newarn,
    result_of (createRole text_Marshal healthy (ri_Name ops_new) (ri_Description ops_new)
                 (ri_MaxSessionDuration ops_new) (ri_PolicyDocument ops_new) 0) =
      Return (Some out, None) /\
    cro_Role out = Some role /\
    ops_Parse (awssdk_StringValue (role_Arn role)) = inl newarn /\
    fst (state_of (Create text_Marshal ops_Parse healthy (ops_new, 0))) =
      mkRoleInstance (ri_Name ops_new) (ri_Description ops_new) (ri_PolicyDocument ops_new)
        (ri_MaxSessionDuration ops_new) newarn.
Proof.
  apply (proj2 (proj2
           (Role_Create_sets_arn_on_success_only text_Marshal ops_Parse healthy ops_new 0))).
  reflexivity.
Defined.

End RolesFacts.
